(** * A turtle-graphics watch: analog / digital variants and alarms

    Shallow embedding of [src/main.py].  Python objects become records,
    methods become functions that thread the receiver and a global
    interaction state explicitly, exceptions become a result type, and the
    calls made to collaborators (the turtle library, [time.sleep], and the
    methods whose body is [pass]) are recorded in a call log so that "what
    is passed to whom, in which order" can be stated. *)

From Stdlib Require Import ZArith QArith Qabs List String Ascii Bool Lia Floats DecimalString.
Import ListNotations.

Local Close Scope Q_scope.
Local Open Scope Z_scope.

(* ================================================================== *)
(** ** Python numbers *)

(** An [int] is unbounded, a [float] is an IEEE-754 binary64: Rocq's
    primitive floats are exactly that format with round-to-nearest-even. *)
Inductive number : Type :=
  | PyInt (z : Z)
  | PyFloat (f : float).

(** The double nearest to an integer, ties to even (exact below 2^53):
    what [float(z)] is when it has a value.  From 2^1024 - 2^970 on the
    nearest double would be 2^1024: there Python raises [OverflowError]
    instead ([int_too_large]), and this function gives an infinity. *)
Definition float_of_Z (z : Z) : float :=
  SF2Prim (binary_normalize prec emax z 0 false).

(** The ints Python refuses to convert to float. *)
Definition int_too_large (z : Z) : bool :=
  2 ^ 1024 - 2 ^ 970 <=? Z.abs z.

Definition to_float (x : number) : float :=
  match x with
  | PyInt z => float_of_Z z
  | PyFloat f => f
  end.

(** The value of [a * b] and [a + b]: integer arithmetic on two ints,
    otherwise both operands are converted to float and the float operation
    is used.  The conversion of an int raises when the int is too large;
    [conversion_overflows] says when, and an operation on a number that the
    caller supplies ([mul_checked], for the radius) tests it first.  The
    int operands of the angle formulas below are fields of a [datetime],
    at most 59, and literals, so these formulas are written with the value
    alone. *)
Definition py_mul (a b : number) : number :=
  match a, b with
  | PyInt x, PyInt y => PyInt (x * y)
  | _, _ => PyFloat (PrimFloat.mul (to_float a) (to_float b))
  end.

Definition py_add (a b : number) : number :=
  match a, b with
  | PyInt x, PyInt y => PyInt (x + y)
  | _, _ => PyFloat (PrimFloat.add (to_float a) (to_float b))
  end.

(** Whether [a * b] raises [OverflowError]: one operand is a float and the
    other an int too large to be converted. *)
Definition conversion_overflows (a b : number) : bool :=
  match a, b with
  | PyInt x, PyFloat _ => int_too_large x
  | PyFloat _, PyInt y => int_too_large y
  | _, _ => false
  end.

(** The float literals of the source.  [0.1] is not a binary64 value; the
    literal denotes the nearest one, written here in hexadecimal. *)
Definition lit_0_1 : float := 0x1.999999999999ap-4%float.
Definition lit_0_5 : float := 0x1p-1%float.

(** Structural equality of numbers, decided; on floats it is bitwise
    (Leibniz) equality, finer than Python's [==]. *)
Definition number_eqb (a b : number) : bool :=
  match a, b with
  | PyInt x, PyInt y => x =? y
  | PyFloat f, PyFloat g => PrimFloat.Leibniz.eqb f g
  | _, _ => false
  end.

(* ================================================================== *)
(** ** Wall-clock time *)

(** What the source reads of a [datetime]: three int fields. *)
Record datetime : Type := mk_datetime {
  hour : Z;
  minute : Z;
  second : Z
}.

(** The ranges [datetime] guarantees. *)
Definition valid_time (t : datetime) : Prop :=
  0 <= hour t < 24 /\ 0 <= minute t < 60 /\ 0 <= second t < 60.

(* ================================================================== *)
(** ** The angle formulas of [AnalogWatch.update] (lines 157-159) *)

Definition second_angle (t : datetime) : number :=
  py_mul (PyInt (second t)) (PyInt 6).

Definition minute_angle (t : datetime) : number :=
  py_add (py_mul (PyInt (minute t)) (PyInt 6))
         (py_mul (PyInt (second t)) (PyFloat lit_0_1)).

Definition hour_angle (t : datetime) : number :=
  py_add (py_mul (PyInt (hour t mod 12)) (PyInt 30))
         (py_mul (PyInt (minute t)) (PyFloat lit_0_5)).

(* ================================================================== *)
(** ** Python's [x % 360]

    Used to state the normalised form of an angle.  On ints it is floor
    modulo.  On floats CPython computes the exact C [fmod] and then moves
    the result to the sign of the divisor: [fmod360] computes that exact
    remainder on the mantissa and exponent of the argument. *)

Definition fmod360 (x : float) : float :=
  match Prim2SF x with
  | S754_finite s m e =>
      let r := if 0 <=? e then Z.rem (Zpos m * 2 ^ e) 360
               else Z.rem (Zpos m) (360 * 2 ^ (- e)) in
      let e' := if 0 <=? e then 0 else e in
      SF2Prim (binary_normalize prec emax (if s then - r else r) e' s)
  | S754_zero _ => x
  | _ => nan
  end.

Definition float_mod360 (x : float) : float :=
  let r := fmod360 x in
  if PrimFloat.eqb r 0 then 0%float
  else if PrimFloat.ltb r 0 then PrimFloat.add r 360 else r.

Definition py_mod360 (a : number) : number :=
  match a with
  | PyInt z => PyInt (z mod 360)
  | PyFloat f => PyFloat (float_mod360 f)
  end.

(** An angle in the half-open circle [0, 360). *)
Definition in_circle (a : number) : bool :=
  match a with
  | PyInt z => (0 <=? z) && (z <? 360)
  | PyFloat f => PrimFloat.leb 0 f && PrimFloat.ltb f 360
  end.

(* ================================================================== *)
(** ** Exceptions, the call log and the interaction state *)

(** The exceptions that can travel through this program: the two that
    [Watch.run] catches ([KeyboardInterrupt] and [turtle.Terminator]);
    [ValueError], which [time.sleep] raises on a negative or NaN length
    and [list.remove] on a missing element; [OverflowError], which
    [time.sleep] raises on a length outside its range and [int * float] on
    an int too large; and two that only the outside raises through a
    library call: [OSError] (the operating system refusing a sleep) and
    [tkinter.TclError] (a drawing call on a destroyed window).  The source
    defines no exception class of its own. *)
Inductive exn : Type :=
  | KeyboardInterrupt
  | Terminator
  | ValueError
  | OverflowError
  | OSError
  | TclError.

Inductive result (A : Type) : Type :=
  | Ok (a : A)
  | Raise (e : exn).
Arguments Ok {A} a.
Arguments Raise {A} e.

(** A turtle object is known by the order of its creation. *)
Definition turtle_id : Type := nat.

Record Digit : Type := mk_Digit {
  digit_value : Z;
  digit_position : number * number;
  digit_size : number;
  digit_turtle : turtle_id
}.

Record ClockFace : Type := mk_ClockFace {
  face_radius : number;
  face_center : number * number;
  digits : list Digit;
  face_turtle : turtle_id
}.

Record Hand : Type := mk_Hand {
  hand_length : number;
  hand_width : number;
  hand_color : string;
  hand_center : number * number;
  angle : number;
  hand_turtle : turtle_id
}.

(** One entry of the call log.  The first group are calls into the turtle
    library and [time]; the second group are calls to methods of this
    program whose body is [pass], logged with receiver and argument so
    that a caller's use of them is visible. *)
Inductive event : Type :=
  | ScreenNew
  | ScreenBgcolor (c : string)
  | ScreenTitle (s : string)
  | ScreenTracer (n : Z)
  | ScreenUpdate
  | TurtleNew (id : turtle_id)
  | TurtleHide (id : turtle_id)
  | TurtleSpeed (id : turtle_id) (n : Z)
  | TurtlePenup (id : turtle_id)
  | TurtleGoto (id : turtle_id) (x y : Z)
  | TurtleColor (id : turtle_id) (c : string)
  | TurtleClear (id : turtle_id)
  | TurtleWrite (id : turtle_id) (text align : string) (font : string * Z * string)
  | Sleep (seconds : number)
  | HandUpdate (self : Hand) (a : number)
  | ClockFaceSetup (self : ClockFace)
  | ClockFaceDraw (self : ClockFace)
  | TriggerAlarm.

(** What the program has done to the outside so far. *)
Record Sys : Type := mk_Sys {
  now_reads : nat;       (* calls of [datetime.now] *)
  lib_calls : nat;       (* calls into turtle and [time.sleep] *)
  turtles : nat;         (* turtle objects created *)
  log : list event
}.

Definition sys0 : Sys := mk_Sys 0 0 0 [].

(** The outside: the time each successive [datetime.now()] returns, and the
    exception, if any, that the n-th library call raises instead of
    returning (Ctrl-C makes the call in progress, usually the sleep, raise
    [KeyboardInterrupt]; after the window is closed [screen.update] raises
    [Terminator]).  Exceptions arise only at library calls here: a
    [KeyboardInterrupt] delivered between two bytecodes of this program is
    outside the model. *)
Record Env : Type := mk_Env {
  clock : nat -> datetime;
  signal : nat -> option exn
}.

(** A method with receiver state [S]: it may change the receiver and the
    interaction state, and returns or raises.  Changes made before a raise
    persist, as in Python. *)
Definition M (S A : Type) : Type := S * Sys -> result A * (S * Sys).

Definition ret {S A} (a : A) : M S A := fun st => (Ok a, st).

Definition bind {S A B} (m : M S A) (k : A -> M S B) : M S B :=
  fun st =>
    match m st with
    | (Ok a, st') => k a st'
    | (Raise e, st') => (Raise e, st')
    end.

Declare Scope py_scope.
Delimit Scope py_scope with py.
Notation "x <- m ;; k" := (bind m (fun x => k))
  (at level 61, m at next level, right associativity) : py_scope.
Notation "m ;; k" := (bind m (fun _ => k))
  (at level 61, right associativity) : py_scope.
Local Open Scope py_scope.

Definition raise {S A} (e : exn) : M S A := fun st => (Raise e, st).

(** [a * b] as an operation that can raise. *)
Definition mul_checked {S} (a b : number) : M S number :=
  if conversion_overflows a b then raise OverflowError else ret (py_mul a b).

Definition get_self {S} : M S S := fun st => (Ok (fst st), st).
Definition set_self {S} (s : S) : M S unit := fun st => (Ok tt, (s, snd st)).

(** Run a method of a component on that component of the receiver. *)
Definition zoom {S T A} (get : T -> S) (set : S -> T -> T) (m : M S A) : M T A :=
  fun st =>
    let '(r, (s', y')) := m (get (fst st), snd st) in
    (r, (set s' (fst st), y')).

Definition add_log (e : event) (y : Sys) : Sys :=
  mk_Sys (now_reads y) (lib_calls y) (turtles y) (log y ++ [e]).

(** A call to a [pass]-bodied method of this program: only logged. *)
Definition call {S} (e : event) : M S unit :=
  fun st => (Ok tt, (fst st, add_log e (snd st))).

Section Outside.

Variable env : Env.

(** [datetime.now()]. *)
Definition now {S} : M S datetime :=
  fun st =>
    let y := snd st in
    (Ok (clock env (now_reads y)),
     (fst st, mk_Sys (Datatypes.S (now_reads y)) (lib_calls y) (turtles y) (log y))).

(** A call into the library: interrupted by the pending signal, if any,
    and performed (logged) otherwise. *)
Definition lib {S} (e : event) : M S unit :=
  fun st =>
    let y := snd st in
    let y' := mk_Sys (now_reads y) (Datatypes.S (lib_calls y)) (turtles y) (log y) in
    match signal env (lib_calls y) with
    | Some x => (Raise x, (fst st, y'))
    | None => (Ok tt, (fst st, add_log e y'))
    end.

(** [turtle.Turtle()]. *)
Definition turtle_new {S} : M S turtle_id :=
  fun st =>
    let y := snd st in
    let id := turtles y in
    match lib (TurtleNew id) st with
    | (Ok _, (s, y1)) =>
        (Ok id, (s, mk_Sys (now_reads y1) (lib_calls y1) (Datatypes.S id) (log y1)))
    | (Raise x, st1) => (Raise x, st1)
    end.

(** The argument checks of [time.sleep(x)] (CPython 3.11), before the
    operating system is asked to sleep; [None] when [x] passes.  The
    length is converted to a signed 64-bit count of nanoseconds: an int
    must lie within 9223372036 seconds either way, a float is multiplied
    by 1e9 as a double and must not exceed 2^63 in magnitude, else
    [OverflowError]; NaN is a [ValueError].  Then a negative count is a
    [ValueError].  (A float whose product is exactly 2^63 passes the range
    test and wraps to the most negative count on x86-64.) *)
Definition sleep_check (x : number) : option exn :=
  match x with
  | PyInt z =>
      if (z <? -9223372036) || (9223372036 <? z) then Some OverflowError
      else if z <? 0 then Some ValueError
      else None
  | PyFloat f =>
      let d := PrimFloat.mul f 1e9 in
      if negb (PrimFloat.eqb f f) then Some ValueError
      else if PrimFloat.ltb 0x1p+63 d || PrimFloat.ltb d (-0x1p+63) then Some OverflowError
      else if PrimFloat.eqb d 0x1p+63 then Some ValueError
      else if PrimFloat.ltb f 0 then Some ValueError
      else None
  end.

(** [time.sleep(x)]: the argument checks, then the library call, which the
    outside may interrupt or refuse. *)
Definition sleep {S} (x : number) : M S unit :=
  match sleep_check x with
  | Some e => raise e
  | None => lib (Sleep x)
  end.

End Outside.

(* ================================================================== *)
(** ** Themes *)

Record Theme : Type := mk_Theme {
  background_color : string;
  face_color : string;
  digit_color : string;
  hour_hand_color : string;
  minute_hand_color : string;
  second_hand_color : string
}.

Definition LightTheme : Theme :=
  mk_Theme "white" "#f0f0f0" "black" "black" "blue" "red".

Definition DarkTheme : Theme :=
  mk_Theme "#1a1a1a" "#333333" "white" "white" "#66a3ff" "#ff6666".

(* ================================================================== *)
(** ** Alarm (lines 208-229) *)

Definition hms : Type := (Z * Z * Z)%type.

Definition hms_eqb (a b : hms) : bool :=
  let '(h1, m1, s1) := a in
  let '(h2, m2, s2) := b in
  (h1 =? h2) && (m1 =? m2) && (s1 =? s2).

(** [x in l] on a Python list. *)
Fixpoint list_contains (x : hms) (l : list hms) : bool :=
  match l with
  | [] => false
  | y :: l' => hms_eqb y x || list_contains x l'
  end.

(** [l.remove(x)]: drops the first element equal to [x]; [None] stands for
    the [ValueError] of a list without one. *)
Fixpoint list_remove (x : hms) (l : list hms) : option (list hms) :=
  match l with
  | [] => None
  | y :: l' =>
      if hms_eqb y x then Some l'
      else match list_remove x l' with
           | Some r => Some (y :: r)
           | None => None
           end
  end.

Record Alarm : Type := mk_Alarm {
  alarms : list hms
}.

Definition Alarm_init : Alarm := mk_Alarm [].

Definition add_alarm (h m s : Z) : M Alarm unit :=
  self <- get_self ;;
  set_self (mk_Alarm (alarms self ++ [(h, m, s)])).

Definition remove_alarm (h m s : Z) : M Alarm bool :=
  self <- get_self ;;
  let alarm := (h, m, s) in
  if list_contains alarm (alarms self) then
    match list_remove alarm (alarms self) with
    | Some l => set_self (mk_Alarm l) ;; ret true
    | None => raise ValueError
    end
  else ret false.

Definition check_alarms (current_time : datetime) : M Alarm bool :=
  self <- get_self ;;
  let current_hms := (hour current_time, minute current_time, second current_time) in
  ret (list_contains current_hms (alarms self)).

(** The second parameter's default, [second = 0]. *)
Definition add_alarm_hm (h m : Z) : M Alarm unit := add_alarm h m 0.
Definition remove_alarm_hm (h m : Z) : M Alarm bool := remove_alarm h m 0.

(* ================================================================== *)
(** ** Formatting of [DigitalWatch.update] (lines 194-201) *)

Local Open Scope string_scope.

Fixpoint zeros (n : nat) : string :=
  match n with
  | O => ""
  | Datatypes.S k => "0" ++ zeros k
  end.

(** The format spec [:02d]: decimal digits, a minus sign for a negative
    number, and zeros between sign and digits up to a total width of 2. *)
Definition format_02d (n : Z) : string :=
  let ds := DecimalString.NilZero.string_of_uint (N.to_uint (Z.abs_N n)) in
  let sign := if (n <? 0)%Z then "-" else "" in
  sign ++ zeros (2 - String.length sign - String.length ds) ++ ds.

Module TimeFormat.
Definition HOURS_24 : string := "24h".
Definition HOURS_12 : string := "12h".
End TimeFormat.

(** The value of [time_str] in [DigitalWatch.update]. *)
Definition time_str (time_format : string) (current_time : datetime) : string :=
  if String.eqb time_format TimeFormat.HOURS_12 then
    let hour0 := (hour current_time mod 12)%Z in
    let hour1 := if (hour0 =? 0)%Z then 12%Z else hour0 in
    let am_pm := if (hour current_time <? 12)%Z then "AM" else "PM" in
    format_02d hour1 ++ ":" ++ format_02d (minute current_time) ++ ":"
      ++ format_02d (second current_time) ++ " " ++ am_pm
  else
    format_02d (hour current_time) ++ ":" ++ format_02d (minute current_time) ++ ":"
      ++ format_02d (second current_time).

Local Close Scope string_scope.

(* ================================================================== *)
(** ** The classes *)

Record AnalogWatch : Type := mk_AnalogWatch {
  analog_theme : Theme;
  radius : number;
  clock_face : ClockFace;
  hour_hand : Hand;
  minute_hand : Hand;
  second_hand : Hand
}.

Definition set_clock_face (c : ClockFace) (w : AnalogWatch) : AnalogWatch :=
  mk_AnalogWatch (analog_theme w) (radius w) c (hour_hand w) (minute_hand w) (second_hand w).
Definition set_hour_hand (h : Hand) (w : AnalogWatch) : AnalogWatch :=
  mk_AnalogWatch (analog_theme w) (radius w) (clock_face w) h (minute_hand w) (second_hand w).
Definition set_minute_hand (h : Hand) (w : AnalogWatch) : AnalogWatch :=
  mk_AnalogWatch (analog_theme w) (radius w) (clock_face w) (hour_hand w) h (second_hand w).
Definition set_second_hand (h : Hand) (w : AnalogWatch) : AnalogWatch :=
  mk_AnalogWatch (analog_theme w) (radius w) (clock_face w) (hour_hand w) (minute_hand w) h.

Record DigitalWatch : Type := mk_DigitalWatch {
  digital_theme : Theme;
  time_format : string;
  digital_turtle : turtle_id
}.

(** [AnalogWatchWithAlarm] inherits the fields of [AnalogWatch] and the
    [alarm] field of the mixin [WatchWithAlarm]. *)
Record AnalogWatchWithAlarm : Type := mk_AnalogWatchWithAlarm {
  analog : AnalogWatch;
  alarm : Alarm
}.

Definition set_analog (a : AnalogWatch) (w : AnalogWatchWithAlarm) : AnalogWatchWithAlarm :=
  mk_AnalogWatchWithAlarm a (alarm w).
Definition set_alarm (a : Alarm) (w : AnalogWatchWithAlarm) : AnalogWatchWithAlarm :=
  mk_AnalogWatchWithAlarm (analog w) a.

(** The float literals of [AnalogWatch.__init__]. *)
Definition lit_0_7 : float := 0x1.6666666666666p-1%float.
Definition lit_0_9 : float := 0x1.ccccccccccccdp-1%float.

Definition origin : number * number := (PyInt 0, PyInt 0).

Section Classes.

Variable env : Env.

(** *** Digit, ClockFace, Hand (lines 8-63) *)

Definition Digit_init {S} (value : Z) (position : number * number) (size : number)
  : M S Digit :=
  t <- turtle_new env ;;
  lib env (TurtleHide t) ;;
  lib env (TurtleSpeed t 0) ;;
  ret (mk_Digit value position size t).

Definition ClockFace_init {S} (radius : number) (center : number * number)
  : M S ClockFace :=
  t <- turtle_new env ;;
  lib env (TurtleHide t) ;;
  lib env (TurtleSpeed t 0) ;;
  ret (mk_ClockFace radius center [] t).

(** [ClockFace.setup] and [ClockFace.draw]: the body is [pass]. *)
Definition ClockFace_setup : M ClockFace unit :=
  self <- get_self ;;
  call (ClockFaceSetup self).

Definition ClockFace_draw : M ClockFace unit :=
  self <- get_self ;;
  call (ClockFaceDraw self).

Definition Hand_init {S} (length width : number) (color : string)
    (center : number * number) : M S Hand :=
  t <- turtle_new env ;;
  lib env (TurtleHide t) ;;
  lib env (TurtleSpeed t 0) ;;
  ret (mk_Hand length width color center (PyInt 0) t).

(** [Hand.update]: the body is [pass]; the receiver is left as it is. *)
Definition Hand_update (a : number) : M Hand unit :=
  self <- get_self ;;
  call (HandUpdate self a).

(** *** Watch (lines 99-133) *)

Definition configure_screen {S} (theme : Theme) : M S unit :=
  lib env (ScreenBgcolor (background_color theme)) ;;
  lib env (ScreenTitle "Python Turtle Watch") ;;
  lib env (ScreenTracer 0).

Definition Watch_init {S} (theme : Theme) : M S unit :=
  lib env ScreenNew ;;
  configure_screen theme.

Section Run.

(** The abstract methods, supplied by the concrete watch. *)
Variable S : Type.
Variable setup : M S unit.
Variable update : M S unit.

(** The body of the [try] block: one tick. *)
Definition tick (update_interval : number) : M S unit :=
  update ;;
  lib env ScreenUpdate ;;
  sleep env update_interval.

Definition is_termination (e : exn) : bool :=
  match e with
  | KeyboardInterrupt | Terminator => true
  | _ => false
  end.

(** [while True: try: ... except (KeyboardInterrupt, Terminator): break],
    cut off after [fuel] iterations ([None]). *)
Fixpoint run_loop (fuel : nat) (update_interval : number) (st : S * Sys)
  : option (result unit * (S * Sys)) :=
  match fuel with
  | O => None
  | Datatypes.S fuel' =>
      match tick update_interval st with
      | (Ok _, st') => run_loop fuel' update_interval st'
      | (Raise e, st') =>
          if is_termination e then Some (Ok tt, st') else Some (Raise e, st')
      end
  end.

Definition run (fuel : nat) (update_interval : number) (st : S * Sys)
  : option (result unit * (S * Sys)) :=
  match setup st with
  | (Ok _, st') => run_loop fuel update_interval st'
  | (Raise e, st') => Some (Raise e, st')
  end.

End Run.

(** *** AnalogWatch (lines 136-164) *)

Definition AnalogWatch_init {S} (theme : Theme) (radius : number) : M S AnalogWatch :=
  Watch_init theme ;;
  face <- ClockFace_init radius origin ;;
  hour_length <- mul_checked radius (PyFloat lit_0_5) ;;
  hh <- Hand_init hour_length (PyInt 6) (hour_hand_color theme) origin ;;
  minute_length <- mul_checked radius (PyFloat lit_0_7) ;;
  mh <- Hand_init minute_length (PyInt 4) (minute_hand_color theme) origin ;;
  second_length <- mul_checked radius (PyFloat lit_0_9) ;;
  sh <- Hand_init second_length (PyInt 2) (second_hand_color theme) origin ;;
  ret (mk_AnalogWatch theme radius face hh mh sh).

Definition AnalogWatch_setup : M AnalogWatch unit :=
  zoom clock_face set_clock_face ClockFace_setup ;;
  zoom clock_face set_clock_face ClockFace_draw.

Definition AnalogWatch_update : M AnalogWatch unit :=
  current_time <- now env ;;
  zoom hour_hand set_hour_hand (Hand_update (hour_angle current_time)) ;;
  zoom minute_hand set_minute_hand (Hand_update (minute_angle current_time)) ;;
  zoom second_hand set_second_hand (Hand_update (second_angle current_time)).

(** *** DigitalWatch (lines 174-205) *)


Definition DigitalWatch_setup : M DigitalWatch unit :=
  self <- get_self ;;
  lib env (TurtlePenup (digital_turtle self)) ;;
  lib env (TurtleGoto (digital_turtle self) 0 0) ;;
  lib env (TurtleColor (digital_turtle self) (digit_color (digital_theme self))).

Definition DigitalWatch_update : M DigitalWatch unit :=
  current_time <- now env ;;
  self <- get_self ;;
  lib env (TurtleClear (digital_turtle self)) ;;
  lib env (TurtleWrite (digital_turtle self) (time_str (time_format self) current_time)
         "center" ("Arial"%string, 36, "bold"%string)).

(** *** WatchWithAlarm and AnalogWatchWithAlarm (lines 232-268) *)

(** [_trigger_alarm]: a placeholder, the body is [pass]. *)
Definition _trigger_alarm {S} : M S unit := call TriggerAlarm.

Definition check_and_trigger_alarm : M AnalogWatchWithAlarm bool :=
  current_time <- now env ;;
  hit <- zoom alarm set_alarm (check_alarms current_time) ;;
  if hit then _trigger_alarm ;; ret true else ret false.

Definition WatchWithAlarm_add_alarm (h m s : Z) : M AnalogWatchWithAlarm unit :=
  zoom alarm set_alarm (add_alarm h m s).

Definition AnalogWatchWithAlarm_init {S} (theme : Theme) (radius : number)
  : M S AnalogWatchWithAlarm :=
  a <- AnalogWatch_init theme radius ;;
  ret (mk_AnalogWatchWithAlarm a Alarm_init).

Definition AnalogWatchWithAlarm_update : M AnalogWatchWithAlarm unit :=
  zoom analog set_analog AnalogWatch_update ;;
  check_and_trigger_alarm ;;
  ret tt.

End Classes.

(** The defaults of the constructors' parameters. *)
Definition default_radius : number := PyInt 200.
Definition default_update_interval : number := PyFloat 1%float.

(** An outside in which no library call raises. *)
Definition quiet (clk : nat -> datetime) : Env := mk_Env clk (fun _ => None).

(** The interaction state after [reads] more [datetime.now()], [calls]
    more library calls, and the given entries appended to the log. *)
Definition advance (y : Sys) (reads calls : nat) (entries : list event) : Sys :=
  mk_Sys (reads + now_reads y) (calls + lib_calls y) (turtles y) (log y ++ entries).

(* ================================================================== *)
(** ** Vocabulary of the statements: angles *)

(** The angles as the specification writes them. *)
Definition spec_second_angle (t : datetime) : number :=
  PyInt (second t * 6).

Definition spec_minute_angle (t : datetime) : number :=
  py_mod360 (py_add (py_mul (PyInt (minute t)) (PyInt 6))
                    (py_mul (PyInt (second t)) (PyFloat lit_0_1))).

Definition spec_hour_angle (t : datetime) : number :=
  py_mod360 (py_add (py_mul (PyInt (hour t mod 12)) (PyInt 30))
                    (py_mul (PyInt (minute t)) (PyFloat lit_0_5))).

(** [0, 1, ..., n-1] *)
Definition range (n : nat) : list Z := map Z.of_nat (seq 0 n).

(** A computed angle is already normalised: it is its own remainder modulo
    360 and lies in the circle. *)
Definition normalised (a : number) : bool :=
  number_eqb (py_mod360 a) a && in_circle a.

(** The rational number a finite float stands for. *)
Definition float_to_Q (f : float) : option Q :=
  match Prim2SF f with
  | S754_zero _ => Some 0%Q
  | S754_finite s m e =>
      let n := if s then Zneg m else Zpos m in
      Some (if 0 <=? e then inject_Z (n * 2 ^ e)
            else Qmake n (Z.to_pos (2 ^ (- e))))
  | _ => None
  end.

Definition number_to_Q (a : number) : option Q :=
  match a with
  | PyInt z => Some (inject_Z z)
  | PyFloat f => float_to_Q f
  end.

(** [a] stands for a rational within [eps] of [q]. *)
Definition close_to (eps q : Q) (a : number) : bool :=
  match number_to_Q a with
  | Some v => Qle_bool (Qabs (v - q)) eps
  | None => false
  end.

(** The angle formulas over the rationals, in degrees. *)
Definition real_minute_angle (t : datetime) : Q :=
  (inject_Z (minute t * 6) + inject_Z (second t) / inject_Z 10)%Q.

Definition real_hour_angle (t : datetime) : Q :=
  (inject_Z ((hour t mod 12) * 30) + inject_Z (minute t) / inject_Z 2)%Q.

(** One unit in the last place of a double between 256 and 512. *)
Definition rounding_bound : Q := Qmake 1 (2 ^ 44).

(* ================================================================== *)
(** ** Vocabulary of the statements: the digital text *)

Local Open Scope string_scope.

(** The formats as the specification writes them: two decimal digits per
    field, and the 12-hour display hour with its suffix. *)
Definition digit_char (d : Z) : ascii := ascii_of_nat (48 + Z.to_nat d).

Definition two_digits (n : Z) : string :=
  String (digit_char (n / 10)) (String (digit_char (n mod 10)) EmptyString).

Definition display_hour (h : Z) : Z :=
  if (h =? 0)%Z then 12%Z
  else if (h <=? 11)%Z then h
  else if (h =? 12)%Z then 12%Z
  else (h - 12)%Z.

Definition am_pm_suffix (h : Z) : string :=
  if (h <? 12)%Z then "AM" else "PM".

Definition spec_24h (t : datetime) : string :=
  two_digits (hour t) ++ ":" ++ two_digits (minute t) ++ ":" ++ two_digits (second t).

Definition spec_12h (t : datetime) : string :=
  two_digits (display_hour (hour t)) ++ ":" ++ two_digits (minute t) ++ ":"
    ++ two_digits (second t) ++ " " ++ am_pm_suffix (hour t).

Definition arial_36_bold : string * Z * string := ("Arial", 36%Z, "bold").

Local Close Scope string_scope.

(* ================================================================== *)
(** ** Vocabulary of the statements: alarms *)

(** The receiver after a method, and what the method returned, when only
    the receiver matters. *)
Definition state_after {S A} (m : M S A) (s : S) : S := fst (snd (m (s, sys0))).
Definition answer {S A} (m : M S A) (s : S) : result A := fst (m (s, sys0)).

(** Number of occurrences of a triple among the entries. *)
Fixpoint occurrences (x : hms) (l : list hms) : nat :=
  match l with
  | [] => O
  | y :: l' => ((if hms_eqb y x then 1 else 0) + occurrences x l')%nat
  end.

Definition hms_of (t : datetime) : hms := (hour t, minute t, second t).

(** The scenario of the specification, on one alarm object. *)
Definition alarm_scenario : M Alarm (bool * bool * bool * bool) :=
  add_alarm 7 0 0 ;;
  c1 <- check_alarms (mk_datetime 7 0 0) ;;
  c2 <- check_alarms (mk_datetime 7 0 1) ;;
  r1 <- remove_alarm 7 0 0 ;;
  r2 <- remove_alarm 7 0 0 ;;
  ret (c1, c2, r1, r2).

(** The claim of C7 as the specification states it: once [(h, m, s)] is
    among the entries, adding it again changes nothing that can be
    observed, so that one removal leaves it absent and a second removal
    reports failure. *)
Definition duplicate_add_is_noop (a : Alarm) (h m s : Z) : Prop :=
  let a1 := state_after (add_alarm h m s) a in
  let a2 := state_after (remove_alarm h m s) a1 in
  (forall t, answer (check_alarms t) a1 = answer (check_alarms t) a)
  /\ answer (remove_alarm h m s) a1 = Ok true
  /\ answer (check_alarms (mk_datetime h m s)) a2 = Ok false
  /\ answer (remove_alarm h m s) a2 = Ok false.

(* ================================================================== *)
(** ** Vocabulary of the statements: log entries, ticks and sample inputs *)

(** The log entries of one analog update at time [t]. *)
Definition analog_entries (w : AnalogWatch) (t : datetime) : list event :=
  [HandUpdate (hour_hand w) (hour_angle t);
   HandUpdate (minute_hand w) (minute_angle t);
   HandUpdate (second_hand w) (second_angle t)].

(** The log entries of the alarm check: the hook call, on a hit. *)
Definition trigger_entries (hit : bool) : list event :=
  if hit then [TriggerAlarm] else [].

(** The state after [n] ticks that all complete normally. *)
Fixpoint ticks {S} (env : Env) (update : M S unit) (n : nat) (update_interval : number)
    (st : S * Sys) : option (S * Sys) :=
  match n with
  | O => Some st
  | Datatypes.S k =>
      match tick env S update update_interval st with
      | (Ok _, st') => ticks env update k update_interval st'
      | (Raise _, _) => None
      end
  end.

(** An interval that passes the checks of [time.sleep] and is at most
    10^9 seconds, far below anything the operating system's sleep
    refuses. *)
Definition ordinary_interval (x : number) : bool :=
  match sleep_check x with
  | Some _ => false
  | None =>
      match x with
      | PyInt z => z <=? 10 ^ 9
      | PyFloat f => PrimFloat.leb f 1e9
      end
  end.

(** The claim of C4 that [update] reports the trigger, at two watches in
    one outside, the alarm check hitting for the first and missing for the
    second: what [update] returns tells the two apart. *)
Definition update_reports_trigger (env : Env) (armed idle : AnalogWatchWithAlarm)
    (y : Sys) : Prop :=
  fst (AnalogWatchWithAlarm_update env (armed, y))
  <> fst (AnalogWatchWithAlarm_update env (idle, y)).

(** The claim of C9 on termination signals, as the specification states
    it, at one watch in an outside that raises nothing but termination
    signals: whenever [run] has ended, it has returned normally. *)
Definition run_exits_cleanly (env : Env) (S : Type) (setup update : M S unit)
    (dt : number) (st : S * Sys) : Prop :=
  forall fuel r st', run env S setup update fuel dt st = Some (r, st') -> r = Ok tt.

(** Ctrl-C during the third sleep: the sixth library call of the loop. *)
Definition ctrl_c_at (k : nat) (clk : nat -> datetime) : Env :=
  mk_Env clk (fun i => if Nat.eqb i k then Some KeyboardInterrupt else None).

Definition seconds_from_7 (i : nat) : datetime := mk_datetime 7 0 (Z.of_nat i).

(** The analog watch that [AnalogWatch()] constructs with its defaults. *)
Definition default_analog_watch : AnalogWatch :=
  mk_AnalogWatch LightTheme default_radius
    (mk_ClockFace default_radius origin [] 0%nat)
    (mk_Hand (PyFloat 100) (PyInt 6) "black" origin (PyInt 0) 1%nat)
    (mk_Hand (PyFloat 140) (PyInt 4) "blue" origin (PyInt 0) 2%nat)
    (mk_Hand (PyFloat 180) (PyInt 2) "red" origin (PyInt 0) 3%nat).

Definition noon (_ : nat) : datetime := mk_datetime 12 0 0.

(** The call returned normally, with a value satisfying [P]. *)
Definition returns {A} (r : result A) (P : A -> Prop) : Prop :=
  match r with
  | Ok a => P a
  | Raise _ => False
  end.

(* ================================================================== *)
(** ** Vocabulary of the further properties *)

(** [remove_alarm(h, m, s)] called [n] times in a row; the number of calls
    that returned true. *)
Fixpoint remove_times (n : nat) (h m s : Z) : M Alarm nat :=
  match n with
  | O => ret O
  | Datatypes.S k =>
      b <- remove_alarm h m s ;;
      c <- remove_times k h m s ;;
      ret ((if b then 1 else 0) + c)%nat
  end.

(** [AnalogWatchWithAlarm] does not override [setup]: it inherits
    [AnalogWatch.setup], which works on the analog fields. *)
Definition AnalogWatchWithAlarm_setup : M AnalogWatchWithAlarm unit :=
  zoom analog set_analog AnalogWatch_setup.

(** The [k]-th library call raises [turtle.Terminator]. *)
Definition closed_at (k : nat) (clk : nat -> datetime) : Env :=
  mk_Env clk (fun i => if Nat.eqb i k then Some Terminator else None).

(** Python's [a < b] for two ints or two floats. *)
Definition number_ltb (a b : number) : bool :=
  match a, b with
  | PyInt x, PyInt y => x <? y
  | PyFloat f, PyFloat g => PrimFloat.ltb f g
  | _, _ => false
  end.

(** Every element is below all later ones. *)
Fixpoint increasing (l : list number) : bool :=
  match l with
  | [] => true
  | a :: l' => forallb (number_ltb a) l' && increasing l'
  end.

(** Whenever two arguments below [n] have the same image under [f], they
    are related by [R]; the images are computed once. *)
Definition same_image_related (f : Z -> number) (R : Z -> Z -> bool) (n : nat) : bool :=
  let l := map (fun a => (a, f a)) (range n) in
  forallb (fun p => forallb (fun q =>
    implb (number_eqb (snd p) (snd q)) (R (fst p) (fst q))) l) l.

(** The minute angle [k] seconds into the hour, and the hour angle [k]
    minutes into the half day. *)
Definition minute_angle_at (k : Z) : number :=
  minute_angle (mk_datetime 0 (k / 60) (k mod 60)).

Definition hour_angle_at (k : Z) : number :=
  hour_angle (mk_datetime (k / 60) (k mod 60) 0).

(* ================================================================== *)
(** ** Angles passed by [AnalogWatch.update] *)

Lemma forallb_range (P : Z -> bool) (n : nat) :
  forallb P (range n) = true ->
  forall z, 0 <= z < Z.of_nat n -> P z = true.
Proof.
  intros Hall z Hz.
  rewrite forallb_forall in Hall. apply Hall.
  unfold range. apply in_map_iff. exists (Z.to_nat z). split.
  - lia.
  - apply in_seq. lia.
Qed.

Lemma number_eqb_eq (a b : number) : number_eqb a b = true -> a = b.
Proof.
  destruct a as [x | f], b as [y | g]; simpl; try discriminate.
  - intros H. apply Z.eqb_eq in H. now subst.
  - intros H. apply FloatAxioms.Leibniz.eqb_spec in H. now subst.
Qed.

Lemma minute_angle_normalised (t : datetime) :
  0 <= minute t < 60 -> 0 <= second t < 60 ->
  normalised (minute_angle t) = true.
Proof.
  intros Hm Hs.
  assert (Hall : forallb (fun m => forallb (fun s =>
            normalised (minute_angle (mk_datetime 0 m s))) (range 60)) (range 60) = true)
    by (vm_compute; reflexivity).
  pose proof (forallb_range _ _ Hall (minute t) Hm) as H1.
  exact (forallb_range _ _ H1 (second t) Hs).
Qed.

Lemma hour_angle_normalised (t : datetime) :
  0 <= hour t < 24 -> 0 <= minute t < 60 ->
  normalised (hour_angle t) = true.
Proof.
  intros Hh Hm.
  assert (Hall : forallb (fun h => forallb (fun m =>
            normalised (hour_angle (mk_datetime h m 0))) (range 60)) (range 24) = true)
    by (vm_compute; reflexivity).
  pose proof (forallb_range _ _ Hall (hour t) Hh) as H1.
  exact (forallb_range _ _ H1 (minute t) Hm).
Qed.

(** Against the formulas over the rationals: the hour angle is exact (it
    is a multiple of one half), the minute angle is off by the rounding of
    [0.1] and of the sum only. *)
Lemma minute_angle_close (t : datetime) :
  0 <= minute t < 60 -> 0 <= second t < 60 ->
  close_to rounding_bound (real_minute_angle t) (minute_angle t) = true.
Proof.
  intros Hm Hs.
  assert (Hall : forallb (fun m => forallb (fun s =>
            close_to rounding_bound (real_minute_angle (mk_datetime 0 m s))
                     (minute_angle (mk_datetime 0 m s))) (range 60)) (range 60) = true)
    by (vm_compute; reflexivity).
  pose proof (forallb_range _ _ Hall (minute t) Hm) as H1.
  exact (forallb_range _ _ H1 (second t) Hs).
Qed.

Lemma hour_angle_exact (t : datetime) :
  0 <= hour t < 24 -> 0 <= minute t < 60 ->
  close_to 0 (real_hour_angle t) (hour_angle t) = true.
Proof.
  intros Hh Hm.
  assert (Hall : forallb (fun h => forallb (fun m =>
            close_to 0 (real_hour_angle (mk_datetime h m 0))
                     (hour_angle (mk_datetime h m 0))) (range 60)) (range 24) = true)
    by (vm_compute; reflexivity).
  pose proof (forallb_range _ _ Hall (hour t) Hh) as H1.
  exact (forallb_range _ _ H1 (minute t) Hm).
Qed.

Lemma AnalogWatch_update_run (env : Env) (w : AnalogWatch) (y : Sys) :
  AnalogWatch_update env (w, y) =
  (Ok tt, (w, advance y 1 0
     [HandUpdate (hour_hand w) (hour_angle (clock env (now_reads y)));
      HandUpdate (minute_hand w) (minute_angle (clock env (now_reads y)));
      HandUpdate (second_hand w) (second_angle (clock env (now_reads y)))])).
Proof.
  destruct w, y. unfold AnalogWatch_update, advance, bind, zoom, Hand_update,
    get_self, call, now, add_log. simpl.
  repeat rewrite <- app_assoc. reflexivity.
Qed.

(** C1. For every time [t] in the ranges of a [datetime],
    [AnalogWatch.update] returns normally, leaves the watch as it is, and
    calls [update] on exactly the hour, minute and second hand, passing
    respectively [((t.hour mod 12) * 30 + t.minute * 0.5) mod 360],
    [(t.minute * 6 + t.second * 0.1) mod 360] and [t.second * 6], the last
    an int in [0, 354]; the float angles lie in [0, 360).  The formulas
    are Python expressions on doubles; as real numbers the hour angle is
    exactly [(t.hour mod 12) * 30 + t.minute / 2] and the minute angle is
    within 2^-44 of [t.minute * 6 + t.second / 10]. *)
Theorem analog_update_angles (env : Env) (w : AnalogWatch) (y : Sys) :
  valid_time (clock env (now_reads y)) ->
  let t := clock env (now_reads y) in
  AnalogWatch_update env (w, y) =
    (Ok tt, (w, advance y 1 0
       [HandUpdate (hour_hand w) (spec_hour_angle t);
        HandUpdate (minute_hand w) (spec_minute_angle t);
        HandUpdate (second_hand w) (spec_second_angle t)]))
  /\ 0 <= second t * 6 <= 354
  /\ in_circle (spec_minute_angle t) = true
  /\ in_circle (spec_hour_angle t) = true
  /\ close_to rounding_bound (real_minute_angle t) (spec_minute_angle t) = true
  /\ close_to 0 (real_hour_angle t) (spec_hour_angle t) = true.
Proof.
  intros (Hh & Hm & Hs) t.
  pose proof (minute_angle_normalised t Hm Hs) as Nm.
  pose proof (hour_angle_normalised t Hh Hm) as Nh.
  unfold normalised in Nm, Nh.
  apply andb_true_iff in Nm, Nh.
  destruct Nm as [Em Cm], Nh as [Eh Ch].
  apply number_eqb_eq in Em, Eh.
  assert (Hmin : spec_minute_angle t = minute_angle t) by exact Em.
  assert (Hhour : spec_hour_angle t = hour_angle t) by exact Eh.
  rewrite Hmin, Hhour.
  split; [apply AnalogWatch_update_run | ].
  split; [subst t; lia | ].
  split; [assumption | split; [assumption | split ] ].
  - apply minute_angle_close; assumption.
  - apply hour_angle_exact; assumption.
Qed.

(** C1 at 23:59:59 on a freshly constructed light-theme watch. *)
Lemma analog_update_angles_witness :
  let env := quiet (fun _ => mk_datetime 23 59 59) in
  let w := mk_AnalogWatch LightTheme default_radius
             (mk_ClockFace default_radius origin [] 0%nat)
             (mk_Hand (PyFloat 100) (PyInt 6) "black" origin (PyInt 0) 1%nat)
             (mk_Hand (PyFloat 140) (PyInt 4) "blue" origin (PyInt 0) 2%nat)
             (mk_Hand (PyFloat 180) (PyInt 2) "red" origin (PyInt 0) 3%nat) in
  log (snd (snd (AnalogWatch_update env (w, sys0)))) =
    [HandUpdate (hour_hand w) (PyFloat 359.5);
     HandUpdate (minute_hand w) (PyFloat 0x1.67e6666666666p+8);
     HandUpdate (second_hand w) (PyInt 354)].
Proof.
  intros env w.
  destruct (analog_update_angles env w sys0) as [E _].
  - unfold valid_time; simpl; lia.
  - rewrite E. vm_compute. reflexivity.
Defined.

(* ================================================================== *)
(** ** The text written by [DigitalWatch.update] *)

Local Open Scope string_scope.

Lemma format_02d_two_digits (n : Z) :
  (0 <= n < 100)%Z -> format_02d n = two_digits n.
Proof.
  intros Hn.
  assert (Hall : forallb (fun k => String.eqb (format_02d k) (two_digits k)) (range 100) = true)
    by (vm_compute; reflexivity).
  apply String.eqb_eq. exact (forallb_range _ _ Hall n Hn).
Qed.

Lemma display_hour_code (h : Z) :
  (0 <= h < 24)%Z ->
  (if (h mod 12 =? 0)%Z then 12%Z else (h mod 12)%Z) = display_hour h
  /\ (1 <= display_hour h <= 12)%Z.
Proof.
  intros Hh.
  assert (Hall : forallb (fun k =>
            ((if (k mod 12 =? 0)%Z then 12%Z else (k mod 12)%Z) =? display_hour k)%Z
            && (1 <=? display_hour k)%Z && (display_hour k <=? 12)%Z) (range 24) = true)
    by (vm_compute; reflexivity).
  pose proof (forallb_range _ _ Hall h Hh) as H. simpl in H.
  apply andb_true_iff in H. destruct H as [H H3].
  apply andb_true_iff in H. destruct H as [H1 H2].
  apply Z.eqb_eq in H1. apply Z.leb_le in H2, H3. lia.
Qed.

Lemma time_str_24h (t : datetime) :
  valid_time t -> time_str TimeFormat.HOURS_24 t = spec_24h t.
Proof.
  intros (Hh & Hm & Hs). unfold time_str, spec_24h. simpl.
  rewrite !format_02d_two_digits by lia. reflexivity.
Qed.

Lemma time_str_12h (t : datetime) :
  valid_time t -> time_str TimeFormat.HOURS_12 t = spec_12h t.
Proof.
  intros (Hh & Hm & Hs). unfold time_str, spec_12h, am_pm_suffix. simpl.
  destruct (display_hour_code (hour t) Hh) as [E R]. rewrite E.
  rewrite !format_02d_two_digits by lia. reflexivity.
Qed.

Lemma DigitalWatch_update_run (env : Env) (self : DigitalWatch) (y : Sys) :
  signal env (lib_calls y) = None ->
  signal env (Datatypes.S (lib_calls y)) = None ->
  DigitalWatch_update env (self, y) =
    (Ok tt, (self, advance y 1 2
       [TurtleClear (digital_turtle self);
        TurtleWrite (digital_turtle self)
          (time_str (time_format self) (clock env (now_reads y)))
          "center" arial_36_bold])).
Proof.
  intros S0 S1. destruct self, y.
  unfold DigitalWatch_update, advance, bind, get_self, now, lib, add_log. simpl in *.
  rewrite S0. simpl. rewrite S1. simpl.
  repeat rewrite <- app_assoc. reflexivity.
Qed.

(** C2. For every time [t] in the ranges of a [datetime],
    [DigitalWatch.update] (when the window is open, so that its two turtle
    calls go through) clears the turtle and writes one text: zero-padded
    [HH:MM:SS] when the format is ["24h"], and [hh:MM:SS AM|PM] when it is
    ["12h"], with display hour 12 for hour 0 and hour 12, the hour itself
    for 1-11, hour - 12 for 13-23, and suffix AM exactly when hour < 12.
    The examples of the specification are instances. *)
Theorem digital_update_format (env : Env) (self : DigitalWatch) (y : Sys) :
  valid_time (clock env (now_reads y)) ->
  signal env (lib_calls y) = None ->
  signal env (Datatypes.S (lib_calls y)) = None ->
  let t := clock env (now_reads y) in
  (exists text,
     DigitalWatch_update env (self, y) =
       (Ok tt, (self, advance y 1 2
          [TurtleClear (digital_turtle self);
           TurtleWrite (digital_turtle self) text "center" arial_36_bold]))
     /\ (time_format self = "24h" -> text = spec_24h t)
     /\ (time_format self = "12h" -> text = spec_12h t))
  /\ time_str "24h" (mk_datetime 0 5 9) = "00:05:09"
  /\ (forall m s, (0 <= m < 60)%Z -> (0 <= s < 60)%Z ->
        time_str "12h" (mk_datetime 0 m s) = "12:" ++ two_digits m ++ ":" ++ two_digits s ++ " AM"
        /\ time_str "12h" (mk_datetime 13 m s) = "01:" ++ two_digits m ++ ":" ++ two_digits s ++ " PM"
        /\ time_str "12h" (mk_datetime 12 m s) = "12:" ++ two_digits m ++ ":" ++ two_digits s ++ " PM").
Proof.
  intros Ht S0 S1 t. split; [ | split ].
  - exists (time_str (time_format self) t). split; [ | split ].
    + apply DigitalWatch_update_run; assumption.
    + intros ->. apply time_str_24h. exact Ht.
    + intros ->. apply time_str_12h. exact Ht.
  - reflexivity.
  - intros m s Hm Hs.
    assert (V : forall h, (0 <= h < 24)%Z -> valid_time (mk_datetime h m s))
      by (intros h Hh; unfold valid_time; simpl; lia).
    repeat split.
    + exact (eq_trans (time_str_12h _ (V 0%Z ltac:(lia))) eq_refl).
    + exact (eq_trans (time_str_12h _ (V 13%Z ltac:(lia))) eq_refl).
    + exact (eq_trans (time_str_12h _ (V 12%Z ltac:(lia))) eq_refl).
Qed.

(** C2 at 13:05:09 in 12-hour format. *)
Lemma digital_update_format_witness :
  let env := quiet (fun _ => mk_datetime 13 5 9) in
  let self := mk_DigitalWatch LightTheme "12h" 0%nat in
  log (snd (snd (DigitalWatch_update env (self, sys0)))) =
    [TurtleClear 0%nat; TurtleWrite 0%nat "01:05:09 PM" "center" arial_36_bold].
Proof.
  intros env self.
  destruct (digital_update_format env self sys0) as [(text & E & _ & T) _].
  - unfold valid_time; simpl; lia.
  - reflexivity.
  - reflexivity.
  - rewrite E, (T eq_refl). reflexivity.
Defined.

Local Close Scope string_scope.

(* ================================================================== *)
(** ** Alarm entries *)

Arguments hms_eqb : simpl never.

Lemma hms_eqb_eq (a b : hms) : hms_eqb a b = true <-> a = b.
Proof.
  destruct a as [[h1 m1] s1], b as [[h2 m2] s2]. unfold hms_eqb.
  rewrite !andb_true_iff, !Z.eqb_eq. split.
  - intros [[-> ->] ->]. reflexivity.
  - intros E. inversion E. auto.
Qed.

Lemma hms_eqb_refl (a : hms) : hms_eqb a a = true.
Proof. apply hms_eqb_eq. reflexivity. Qed.

Lemma hms_eqb_sym (a b : hms) : hms_eqb a b = hms_eqb b a.
Proof.
  destruct (hms_eqb a b) eqn:E1, (hms_eqb b a) eqn:E2; try reflexivity.
  - apply hms_eqb_eq in E1. subst. rewrite hms_eqb_refl in E2. discriminate.
  - apply hms_eqb_eq in E2. subst. rewrite hms_eqb_refl in E1. discriminate.
Qed.

Lemma list_contains_In (x : hms) (l : list hms) :
  list_contains x l = true <-> In x l.
Proof.
  induction l as [| y l IH]; simpl.
  - split; [discriminate | tauto].
  - rewrite orb_true_iff, hms_eqb_eq, IH. tauto.
Qed.

Lemma list_contains_occurrences (x : hms) (l : list hms) :
  list_contains x l = true <-> (0 < occurrences x l)%nat.
Proof.
  induction l as [| y l IH]; simpl.
  - split; [discriminate | lia].
  - destruct (hms_eqb y x); simpl; [ split; [lia | reflexivity] | exact IH ].
Qed.

Lemma list_contains_app (x : hms) (l1 l2 : list hms) :
  list_contains x (l1 ++ l2) = list_contains x l1 || list_contains x l2.
Proof.
  induction l1 as [| y l1 IH]; simpl; [reflexivity | ].
  rewrite IH. apply orb_assoc.
Qed.

Lemma occurrences_app (x : hms) (l1 l2 : list hms) :
  occurrences x (l1 ++ l2) = (occurrences x l1 + occurrences x l2)%nat.
Proof.
  induction l1 as [| y l1 IH]; simpl; [reflexivity | ].
  rewrite IH. lia.
Qed.

(** [l.remove(x)] succeeds exactly on a list containing [x], and then
    drops the first occurrence and nothing else. *)
Lemma list_remove_present (x : hms) (l : list hms) :
  list_contains x l = true ->
  exists l1 l2,
    l = l1 ++ x :: l2 /\ list_contains x l1 = false /\
    list_remove x l = Some (l1 ++ l2).
Proof.
  induction l as [| y l IH]; simpl; [discriminate | ].
  destruct (hms_eqb y x) eqn:E; simpl.
  - intros _. apply hms_eqb_eq in E. subst y.
    exists [], l. repeat split.
  - intros H. destruct (IH H) as (l1 & l2 & -> & H1 & ->).
    exists (y :: l1), l2. simpl. rewrite E, H1. repeat split.
Qed.

Lemma list_remove_absent (x : hms) (l : list hms) :
  list_contains x l = false -> list_remove x l = None.
Proof.
  induction l as [| y l IH]; simpl; [reflexivity | ].
  destruct (hms_eqb y x); simpl; [discriminate | ].
  intros H. rewrite (IH H). reflexivity.
Qed.

Lemma occurrences_absent (x : hms) (l : list hms) :
  list_contains x l = false -> occurrences x l = O.
Proof.
  intros H. destruct (occurrences x l) eqn:E; [reflexivity | ].
  assert (C : list_contains x l = true) by (apply list_contains_occurrences; lia).
  congruence.
Qed.

(** The three methods, run. *)
Lemma add_alarm_run (h m s : Z) (a : Alarm) (y : Sys) :
  add_alarm h m s (a, y) = (Ok tt, (mk_Alarm (alarms a ++ [(h, m, s)]), y)).
Proof. reflexivity. Qed.

Lemma check_alarms_run (t : datetime) (a : Alarm) (y : Sys) :
  check_alarms t (a, y) = (Ok (list_contains (hms_of t) (alarms a)), (a, y)).
Proof. reflexivity. Qed.

Lemma remove_alarm_miss (h m s : Z) (a : Alarm) (y : Sys) :
  list_contains (h, m, s) (alarms a) = false ->
  remove_alarm h m s (a, y) = (Ok false, (a, y)).
Proof.
  intros H. unfold remove_alarm, bind, get_self. simpl. rewrite H. reflexivity.
Qed.

Lemma remove_alarm_hit (h m s : Z) (a : Alarm) (y : Sys) :
  list_contains (h, m, s) (alarms a) = true ->
  exists l1 l2,
    alarms a = l1 ++ (h, m, s) :: l2 /\ list_contains (h, m, s) l1 = false /\
    remove_alarm h m s (a, y) = (Ok true, (mk_Alarm (l1 ++ l2), y)).
Proof.
  intros H. destruct (list_remove_present _ _ H) as (l1 & l2 & E & H1 & R).
  exists l1, l2. repeat split; try assumption.
  unfold remove_alarm, bind, get_self. simpl. rewrite H, R. reflexivity.
Qed.

(** C3. On a fresh [Alarm], after [add_alarm(7,0,0)]: the check at 7:00:00
    is true, the check at 7:00:01 is false, [remove_alarm(7,0,0)] returns
    true and a second one returns false.  In general [check_alarms(now)]
    returns true iff the triple of [now] is among the entries, and
    [remove_alarm] never raises: it returns whether the triple was among
    the entries, removes its first occurrence when it was, and changes
    nothing when it was not. *)
Theorem alarm_add_check_remove :
  (forall y, alarm_scenario (Alarm_init, y) = (Ok (true, false, true, false), (Alarm_init, y)))
  /\ (forall a t y, exists b,
        check_alarms t (a, y) = (Ok b, (a, y))
        /\ (b = true <-> In (hour t, minute t, second t) (alarms a)))
  /\ (forall a h m s y, exists b a',
        remove_alarm h m s (a, y) = (Ok b, (a', y))
        /\ (b = true <-> In (h, m, s) (alarms a))
        /\ (b = true -> exists l1 l2,
              alarms a = l1 ++ (h, m, s) :: l2 /\ ~ In (h, m, s) l1 /\ alarms a' = l1 ++ l2)
        /\ (b = false -> a' = a)).
Proof.
  split; [ | split ].
  - intros y. reflexivity.
  - intros a t y. exists (list_contains (hms_of t) (alarms a)). split.
    + apply check_alarms_run.
    + apply list_contains_In.
  - intros a h m s y.
    destruct (list_contains (h, m, s) (alarms a)) eqn:C.
    + destruct (remove_alarm_hit h m s a y C) as (l1 & l2 & E & H1 & R).
      exists true, (mk_Alarm (l1 ++ l2)). split; [exact R | ].
      split; [ | split ].
      * split; intros _; [apply list_contains_In; exact C | reflexivity].
      * intros _. exists l1, l2. repeat split; try assumption.
        intros I. apply list_contains_In in I. congruence.
      * discriminate.
    + exists false, a. split; [apply remove_alarm_miss; exact C | ].
      split; [ | split ].
      * split; [discriminate | ].
        intros I. apply list_contains_In in I. congruence.
      * discriminate.
      * reflexivity.
Qed.

(** C7, refuted: with 7:00:00 already set, adding it again and removing it
    once leaves it set, and the second removal succeeds as well. *)
Lemma duplicate_add_counterexample :
  list_contains (7, 0, 0) (alarms (mk_Alarm [(7, 0, 0)])) = true
  /\ ~ duplicate_add_is_noop (mk_Alarm [(7, 0, 0)]) 7 0 0.
Proof.
  split; [reflexivity | ].
  intros (_ & _ & C & _). vm_compute in C. discriminate.
Qed.

(** C7, amended.  The entries are a list: for every alarm already
    containing [(h, m, s)], [add_alarm(h, m, s)] appends one more
    occurrence.  No [check_alarms] result changes, but one
    [remove_alarm(h, m, s)] only undoes the addition: it returns true and
    brings the number of occurrences back to what it was, so the triple is
    still set and a second [remove_alarm(h, m, s)] returns true again. *)
Theorem duplicate_add_appends (a : Alarm) (h m s : Z) :
  list_contains (h, m, s) (alarms a) = true ->
  let a1 := state_after (add_alarm h m s) a in
  let a2 := state_after (remove_alarm h m s) a1 in
  (forall t, answer (check_alarms t) a1 = answer (check_alarms t) a)
  /\ occurrences (h, m, s) (alarms a1) = Datatypes.S (occurrences (h, m, s) (alarms a))
  /\ answer (remove_alarm h m s) a1 = Ok true
  /\ occurrences (h, m, s) (alarms a2) = occurrences (h, m, s) (alarms a)
  /\ answer (check_alarms (mk_datetime h m s)) a2 = Ok true
  /\ answer (remove_alarm h m s) a2 = Ok true.
Proof.
  intros C a1 a2.
  assert (E1 : alarms a1 = alarms a ++ [(h, m, s)]) by reflexivity.
  assert (O1 : occurrences (h, m, s) (alarms a1)
               = Datatypes.S (occurrences (h, m, s) (alarms a))).
  { rewrite E1, occurrences_app. simpl. rewrite hms_eqb_refl. lia. }
  assert (C1 : list_contains (h, m, s) (alarms a1) = true).
  { rewrite E1, list_contains_app, C. reflexivity. }
  destruct (remove_alarm_hit h m s a1 sys0 C1) as (l1 & l2 & E & H1 & R).
  assert (E2 : alarms a2 = l1 ++ l2) by (unfold a2, state_after; rewrite R; reflexivity).
  assert (O2 : occurrences (h, m, s) (alarms a2) = occurrences (h, m, s) (alarms a)).
  { rewrite E in O1. rewrite occurrences_app in O1. simpl in O1.
    rewrite hms_eqb_refl in O1. rewrite E2, occurrences_app. lia. }
  assert (C2 : list_contains (h, m, s) (alarms a2) = true).
  { apply list_contains_occurrences. rewrite O2.
    apply list_contains_occurrences. exact C. }
  split; [ | split; [exact O1 | split; [ | split; [exact O2 | split ] ] ] ].
  - intros t. unfold answer. rewrite !check_alarms_run. cbn [fst]. f_equal.
    rewrite E1, list_contains_app. cbn [list_contains]. rewrite orb_false_r.
    destruct (hms_eqb (h, m, s) (hms_of t)) eqn:Q.
    + apply hms_eqb_eq in Q. rewrite <- Q, C. reflexivity.
    + apply orb_false_r.
  - unfold answer. rewrite R. reflexivity.
  - unfold answer. rewrite check_alarms_run. cbn [fst]. f_equal. exact C2.
  - destruct (remove_alarm_hit h m s a2 sys0 C2) as (k1 & k2 & _ & _ & R2).
    unfold answer. rewrite R2. reflexivity.
Qed.

(** C7 amended, at an alarm holding 7:00:00 once. *)
Lemma duplicate_add_appends_witness :
  let a := mk_Alarm [(7, 0, 0)] in
  let a1 := state_after (add_alarm 7 0 0) a in
  alarms a1 = [(7, 0, 0); (7, 0, 0)]
  /\ answer (remove_alarm 7 0 0) (state_after (remove_alarm 7 0 0) a1) = Ok true.
Proof.
  intros a a1. split; [reflexivity | ].
  apply (duplicate_add_appends a 7 0 0). reflexivity.
Defined.

(** C10. [check_alarms] returns without changing the alarm or anything
    else, and [remove_alarm] returns false exactly when the triple is not
    among the entries, in which case it, too, changes nothing. *)
Theorem alarm_frame (a : Alarm) (t : datetime) (h m s : Z) (y : Sys) :
  snd (check_alarms t (a, y)) = (a, y)
  /\ (fst (remove_alarm h m s (a, y)) = Ok false
      <-> list_contains (h, m, s) (alarms a) = false)
  /\ (fst (remove_alarm h m s (a, y)) = Ok false
      -> snd (remove_alarm h m s (a, y)) = (a, y)).
Proof.
  split; [reflexivity | ].
  destruct (list_contains (h, m, s) (alarms a)) eqn:C.
  - destruct (remove_alarm_hit h m s a y C) as (l1 & l2 & _ & _ & R).
    rewrite R. simpl. split; [ split | ]; discriminate.
  - rewrite (remove_alarm_miss h m s a y C). simpl.
    split; [ split | ]; reflexivity.
Qed.

(* ================================================================== *)
(** ** [AnalogWatchWithAlarm.update] *)

Lemma advance_advance (y : Sys) (r1 c1 r2 c2 : nat) (l1 l2 : list event) :
  advance (advance y r1 c1 l1) r2 c2 l2 = advance y (r2 + r1) (c2 + c1) (l1 ++ l2).
Proof.
  unfold advance. simpl. rewrite <- app_assoc. f_equal; lia.
Qed.

Lemma check_and_trigger_alarm_run (env : Env) (w : AnalogWatchWithAlarm) (y : Sys) :
  check_and_trigger_alarm env (w, y) =
    (Ok (list_contains (hms_of (clock env (now_reads y))) (alarms (alarm w))),
     (w, advance y 1 0
           (trigger_entries
              (list_contains (hms_of (clock env (now_reads y))) (alarms (alarm w)))))).
Proof.
  destruct w as [aw [al]], y as [r c n l].
  unfold check_and_trigger_alarm, bind, zoom, now, check_alarms, get_self, ret,
    _trigger_alarm, call, advance, trigger_entries, hms_of, add_log.
  simpl.
  destruct (list_contains _ al); simpl.
  - reflexivity.
  - rewrite app_nil_r. reflexivity.
Qed.

(** C4, refuted: with the clock at noon, a watch with an alarm at
    12:00:00 and a watch without alarms, the alarm check hits for the
    first and misses for the second, yet [update] returns the same for
    both ([None]): it does not report the trigger. *)
Lemma alarm_report_counterexample :
  let env := quiet noon in
  let armed := mk_AnalogWatchWithAlarm default_analog_watch (mk_Alarm [(12, 0, 0)]) in
  let idle := mk_AnalogWatchWithAlarm default_analog_watch Alarm_init in
  fst (check_and_trigger_alarm env (armed, sys0)) = Ok true
  /\ fst (check_and_trigger_alarm env (idle, sys0)) = Ok false
  /\ ~ update_reports_trigger env armed idle sys0.
Proof.
  intros env armed idle. split; [reflexivity | split; [reflexivity | ] ].
  intros H. apply H. vm_compute. reflexivity.
Qed.

(** C4, amended.  [AnalogWatchWithAlarm.update] is the analog update
    followed by the alarm check and nothing else: its effect is that of
    [AnalogWatch.update] on the watch (the three hand updates, once, in
    their order), then that of [check_and_trigger_alarm], which reads the
    time, asks [Alarm.check_alarms], and on true calls the trigger hook
    and returns true, on false calls nothing and returns false.  [update]
    itself drops that boolean and returns [None] in both cases; the call
    of the hook is the only trace of a trigger.  The watch itself is left
    unchanged. *)
Theorem alarm_watch_update (env : Env) (w : AnalogWatchWithAlarm) (y : Sys) :
  let t1 := clock env (now_reads y) in
  let t2 := clock env (Datatypes.S (now_reads y)) in
  let y1 := advance y 1 0 (analog_entries (analog w) t1) in
  exists hit : bool,
    answer (check_alarms t2) (alarm w) = Ok hit
    /\ AnalogWatch_update env (analog w, y) = (Ok tt, (analog w, y1))
    /\ check_and_trigger_alarm env (w, y1) =
         (Ok hit, (w, advance y1 1 0 (trigger_entries hit)))
    /\ AnalogWatchWithAlarm_update env (w, y) =
         (Ok tt, (w, advance y 2 0
                       (analog_entries (analog w) t1 ++ trigger_entries hit)))
    /\ (In TriggerAlarm (trigger_entries hit) <-> hit = true).
Proof.
  intros t1 t2 y1.
  exists (list_contains (hms_of t2) (alarms (alarm w))).
  assert (A : AnalogWatch_update env (analog w, y) = (Ok tt, (analog w, y1)))
    by apply AnalogWatch_update_run.
  assert (K : check_and_trigger_alarm env (w, y1) =
              (Ok (list_contains (hms_of t2) (alarms (alarm w))),
               (w, advance y1 1 0
                     (trigger_entries (list_contains (hms_of t2) (alarms (alarm w)))))))
    by apply check_and_trigger_alarm_run.
  split; [reflexivity | split; [exact A | split; [exact K | split ] ] ].
  - unfold AnalogWatchWithAlarm_update, bind, zoom. cbn [fst snd].
    rewrite A. cbn [fst snd].
    replace (set_analog (analog w) w) with w by (destruct w; reflexivity).
    rewrite K. unfold y1. rewrite advance_advance. reflexivity.
  - destruct (list_contains (hms_of t2) (alarms (alarm w))); simpl.
    + split; auto.
    + split; [tauto | discriminate].
Qed.

(* ================================================================== *)
(** ** The run loop *)

Section RunFacts.

Variable env : Env.
Variable S : Type.
Variables setup update : M S unit.

Lemma tick_update_raises (dt : number) (st st1 : S * Sys) (e : exn) :
  update st = (Raise e, st1) ->
  tick env S update dt st = (Raise e, st1).
Proof.
  intros U. unfold tick, bind. rewrite U. reflexivity.
Qed.

Lemma tick_signal_commit (dt : number) (st st1 : S * Sys) (e : exn) :
  update st = (Ok tt, st1) ->
  signal env (lib_calls (snd st1)) = Some e ->
  tick env S update dt st = (Raise e, (fst st1, advance (snd st1) 0 1 [])).
Proof.
  intros U G. unfold tick, bind, lib. rewrite U, G.
  unfold advance. simpl. rewrite app_nil_r. reflexivity.
Qed.


Lemma tick_signal_sleep (dt : number) (st st1 : S * Sys) (e : exn) :
  update st = (Ok tt, st1) ->
  signal env (lib_calls (snd st1)) = None ->
  sleep_check dt = None ->
  signal env (Datatypes.S (lib_calls (snd st1))) = Some e ->
  tick env S update dt st = (Raise e, (fst st1, advance (snd st1) 0 2 [ScreenUpdate])).
Proof.
  intros U G B G'. destruct st1 as [s1 y1]. simpl in G, G'.
  unfold tick, bind, sleep, lib. rewrite U. simpl. rewrite G, B. simpl.
  rewrite G'. reflexivity.
Qed.

Lemma tick_completes (dt : number) (st st1 : S * Sys) :
  update st = (Ok tt, st1) ->
  signal env (lib_calls (snd st1)) = None ->
  sleep_check dt = None ->
  signal env (Datatypes.S (lib_calls (snd st1))) = None ->
  tick env S update dt st =
    (Ok tt, (fst st1, advance (snd st1) 0 2 [ScreenUpdate; Sleep dt])).
Proof.
  intros U G B G'. destruct st1 as [s1 y1]. simpl in G, G'.
  unfold tick, bind, sleep, lib. rewrite U. simpl. rewrite G, B. simpl.
  rewrite G'. unfold advance, add_log. simpl. rewrite <- app_assoc. reflexivity.
Qed.

Lemma run_loop_ticks (n k : nat) (dt : number) (st0 stn : S * Sys) :
  ticks env update n dt st0 = Some stn ->
  run_loop env S update (n + k) dt st0 = run_loop env S update k dt stn.
Proof.
  revert st0. induction n as [| n IH]; intros st0 T; simpl in *.
  - now inversion T.
  - destruct (tick env S update dt st0) as [[[] | e] st'].
    + apply IH. exact T.
    + discriminate.
Qed.

(** While every tick completes, the loop goes on. *)
Lemma run_loop_out_of_fuel (n : nat) (dt : number) (st0 stn : S * Sys) :
  ticks env update n dt st0 = Some stn ->
  run_loop env S update n dt st0 = None.
Proof.
  intros T. rewrite <- (Nat.add_0_r n) at 1.
  rewrite (run_loop_ticks n 0 dt st0 stn T). reflexivity.
Qed.

(** An exception of [setup] is outside the [try]: it leaves [run]. *)
Lemma run_setup_raises (fuel : nat) (dt : number) (st st' : S * Sys) (e : exn) :
  setup st = (Raise e, st') ->
  run env S setup update fuel dt st = Some (Raise e, st').
Proof.
  intros U. unfold run. rewrite U. reflexivity.
Qed.


End RunFacts.

Lemma ordinary_interval_check (dt : number) :
  ordinary_interval dt = true -> sleep_check dt = None.
Proof.
  unfold ordinary_interval. destruct (sleep_check dt); [discriminate | reflexivity].
Qed.


(** C9, refuted: a [KeyboardInterrupt] at the first turtle call of
    [DigitalWatch.setup], in an outside that raises nothing else, leaves
    [run] as an exception. *)
Lemma run_signal_counterexample :
  let env := ctrl_c_at 0 noon in
  let w := mk_DigitalWatch LightTheme "24h" 0%nat in
  (forall k e, signal env k = Some e -> e = KeyboardInterrupt)
  /\ ~ run_exits_cleanly env DigitalWatch (DigitalWatch_setup env)
         (DigitalWatch_update env) default_update_interval (w, sys0).
Proof.
  intros env w. split.
  - intros k e. unfold env, ctrl_c_at. cbn [signal].
    destruct (Nat.eqb k 0); intros H; inversion H. reflexivity.
  - intros H.
    specialize (H 1%nat (Raise KeyboardInterrupt) (w, advance sys0 0 1 [])).
    assert (R : run env DigitalWatch (DigitalWatch_setup env) (DigitalWatch_update env)
                  1 default_update_interval (w, sys0)
                = Some (Raise KeyboardInterrupt, (w, advance sys0 0 1 [])))
      by (vm_compute; reflexivity).
    specialize (H R). discriminate H.
Qed.

(** C9, amended.  [Watch.run] calls [setup] once and then repeats the tick
    [update], commit frame ([screen.update]), suspend ([time.sleep] of the
    interval).  A [KeyboardInterrupt] or [turtle.Terminator] raised inside
    the loop body is a shutdown, not an error: if [setup] has returned, [n]
    ticks have completed and the next tick raises one of the two, then
    [run] returns normally, in the state the interrupted tick left, given
    fuel for more than [n] iterations (and has not returned before).  A
    tick that completes is exactly the update, one [screen.update] and one
    [sleep(interval)], in this order.  An exception raised while [setup]
    runs is outside the [try] and leaves [run], whatever it is. *)
Theorem run_clean_exit (env : Env) (S : Type) (setup update : M S unit)
    (fuel n : nat) (dt : number) (st st0 stn st' : S * Sys) (e : exn) :
  setup st = (Ok tt, st0) ->
  ticks env update n dt st0 = Some stn ->
  tick env S update dt stn = (Raise e, st') ->
  e = KeyboardInterrupt \/ e = Terminator ->
  (n < fuel)%nat ->
  run env S setup update fuel dt st = Some (Ok tt, st')
  /\ run env S setup update n dt st = None
  /\ (forall a a1,
        update a = (Ok tt, a1) ->
        signal env (lib_calls (snd a1)) = None ->
        ordinary_interval dt = true ->
        signal env (Datatypes.S (lib_calls (snd a1))) = None ->
        tick env S update dt a =
          (Ok tt, (fst a1, advance (snd a1) 0 2 [ScreenUpdate; Sleep dt])))
  /\ (forall a a1 x f,
        setup a = (Raise x, a1) ->
        run env S setup update f dt a = Some (Raise x, a1)).
Proof.
  intros U T X Q F. split; [ | split; [ | split ] ].
  - unfold run. rewrite U.
    replace fuel with (n + Datatypes.S (fuel - n - 1))%nat by lia.
    rewrite (run_loop_ticks _ _ _ _ _ _ _ _ T). simpl. rewrite X.
    destruct Q as [-> | ->]; reflexivity.
  - unfold run. rewrite U. exact (run_loop_out_of_fuel _ _ _ _ _ _ _ T).
  - intros a a1 Ua G O G'.
    exact (tick_completes env S update dt a a1 Ua G (ordinary_interval_check dt O) G').
  - intros a a1 x f Ua. apply run_setup_raises. exact Ua.
Qed.

(** C9 on the default analog watch, with the window closed before the
    third [screen.update]. *)
Lemma run_clean_exit_witness :
  let env := closed_at 4 seconds_from_7 in
  let w := default_analog_watch in
  let dt := default_update_interval in
  let r := run env AnalogWatch AnalogWatch_setup (AnalogWatch_update env) 10 dt (w, sys0) in
  option_map fst r = Some (Ok tt)
  /\ option_map (fun x => log (snd (snd x))) r =
       Some ([ClockFaceSetup (clock_face w); ClockFaceDraw (clock_face w)]
             ++ analog_entries w (seconds_from_7 0) ++ [ScreenUpdate; Sleep dt]
             ++ analog_entries w (seconds_from_7 1) ++ [ScreenUpdate; Sleep dt]
             ++ analog_entries w (seconds_from_7 2)).
Proof.
  intros env w dt r.
  pose (st0 := snd (AnalogWatch_setup (w, sys0))).
  pose (st2 := match ticks env (AnalogWatch_update env) 2 dt st0 with
               | Some x => x
               | None => st0
               end).
  pose (st3 := snd (tick env AnalogWatch (AnalogWatch_update env) dt st2)).
  destruct (run_clean_exit env AnalogWatch AnalogWatch_setup (AnalogWatch_update env)
              10 2 dt (w, sys0) st0 st2 st3 Terminator) as [R _].
  - vm_compute. reflexivity.
  - vm_compute. reflexivity.
  - vm_compute. reflexivity.
  - right. reflexivity.
  - repeat constructor.
  - unfold r. rewrite R. vm_compute. split; reflexivity.
Defined.

(* ================================================================== *)
(** ** Configuration *)


Lemma time_str_other_format (f : string) (t : datetime) :
  String.eqb f TimeFormat.HOURS_12 = false ->
  time_str f t = time_str TimeFormat.HOURS_24 t.
Proof.
  intros H. unfold time_str. rewrite H. reflexivity.
Qed.




(** The threshold of [int_too_large] is where the nearest double stops
    being finite. *)
Lemma int_too_large_boundary :
  int_too_large (2 ^ 1024 - 2 ^ 970 - 1) = false
  /\ float_of_Z (2 ^ 1024 - 2 ^ 970 - 1) = 0x1.fffffffffffffp+1023%float
  /\ int_too_large (2 ^ 1024 - 2 ^ 970) = true
  /\ float_of_Z (2 ^ 1024 - 2 ^ 970) = infinity
  /\ float_of_Z (- (2 ^ 1024 - 2 ^ 970)) = neg_infinity.
Proof.
  repeat split; vm_compute; reflexivity.
Qed.


(* ================================================================== *)
(** ** The methods without a body *)

(** C5 on the code: [ClockFace.setup] is [pass].  It returns leaving the
    face as it was, so the face that [ClockFace(radius, center)] constructs
    still has no digits after [setup()], not twelve. *)
Theorem clock_face_setup_no_digits :
  (forall self y,
      ClockFace_setup (self, y) = (Ok tt, (self, add_log (ClockFaceSetup self) y)))
  /\ (forall clk r c,
        returns (fst (ClockFace_init (quiet clk) r c (tt, sys0)))
                (fun face =>
                   digits (state_after ClockFace_setup face) = []
                   /\ List.length (digits (state_after ClockFace_setup face)) <> 12%nat)).
Proof.
  split.
  - intros self y. reflexivity.
  - intros clk r c. cbv. split; [reflexivity | discriminate].
Qed.

(** C6 on the code: [Hand.update] is [pass].  It returns without drawing
    and leaves the hand, its angle included, as it was: a freshly
    constructed hand updated to 90 still has angle 0. *)
Theorem hand_update_keeps_angle :
  (forall self a y,
      Hand_update a (self, y) = (Ok tt, (self, add_log (HandUpdate self a) y))
      /\ angle (state_after (Hand_update a) self) = angle self)
  /\ (forall clk len wd col c,
        returns (fst (Hand_init (quiet clk) len wd col c (tt, sys0)))
                (fun h => angle (state_after (Hand_update (PyInt 90)) h) = PyInt 0)).
Proof.
  split.
  - intros self a y. split; reflexivity.
  - intros clk len wd col c. cbv. reflexivity.
Qed.

(* ================================================================== *)
(** ** Further properties: alarm entries *)

Lemma occurrences_cons (z x : hms) (l : list hms) :
  occurrences z (x :: l) = ((if hms_eqb x z then 1 else 0) + occurrences z l)%nat.
Proof. reflexivity. Qed.

Lemma list_remove_snoc_absent (x : hms) (l : list hms) :
  list_contains x l = false -> list_remove x (l ++ [x]) = Some l.
Proof.
  induction l as [| y l IH]; simpl.
  - intros _. rewrite hms_eqb_refl. reflexivity.
  - destruct (hms_eqb y x); simpl; [discriminate | ].
    intros H. rewrite (IH H). reflexivity.
Qed.

(** X1. After [add_alarm(h, m, s)], whatever the entries were before:
    the check at [h:m:s] is true, every check that was true stays true,
    the check at any other time is as before, there is one more entry, and
    no range is enforced: a triple outside the ranges of a [datetime] is
    stored but changes no check at a real time. *)
Theorem add_alarm_then_check (a : Alarm) (h m s : Z) :
  let a1 := state_after (add_alarm h m s) a in
  answer (check_alarms (mk_datetime h m s)) a1 = Ok true
  /\ (forall t, answer (check_alarms t) a = Ok true ->
                answer (check_alarms t) a1 = Ok true)
  /\ (forall t, hms_of t <> (h, m, s) ->
                answer (check_alarms t) a1 = answer (check_alarms t) a)
  /\ List.length (alarms a1) = Datatypes.S (List.length (alarms a))
  /\ (~ valid_time (mk_datetime h m s) ->
      forall t, valid_time t ->
                answer (check_alarms t) a1 = answer (check_alarms t) a).
Proof.
  intros a1.
  assert (E1 : alarms a1 = alarms a ++ [(h, m, s)]) by reflexivity.
  assert (K : forall t, answer (check_alarms t) a1 =
                        Ok (list_contains (hms_of t) (alarms a)
                            || hms_eqb (h, m, s) (hms_of t))).
  { intros t. unfold answer. rewrite check_alarms_run. cbn [fst].
    rewrite E1, list_contains_app. cbn [list_contains].
    rewrite orb_false_r. reflexivity. }
  assert (O : forall t, hms_of t <> (h, m, s) ->
                        answer (check_alarms t) a1 = answer (check_alarms t) a).
  { intros t N. rewrite K. unfold answer at 1. rewrite check_alarms_run. cbn [fst].
    destruct (hms_eqb (h, m, s) (hms_of t)) eqn:Q.
    - apply hms_eqb_eq in Q. congruence.
    - rewrite orb_false_r. reflexivity. }
  split; [ | split; [ | split; [exact O | split ] ] ].
  - rewrite K. unfold hms_of. cbn [hour minute second].
    rewrite hms_eqb_refl, orb_true_r. reflexivity.
  - intros t H. rewrite K. unfold answer in H. rewrite check_alarms_run in H.
    cbn [fst] in H. injection H as H. rewrite H. reflexivity.
  - rewrite E1, length_app. simpl. lia.
  - intros NV t V. apply O. intros E. apply NV.
    unfold hms_of in E. injection E as Eh Em Es.
    unfold valid_time in *. cbn [hour minute second]. rewrite <- Eh, <- Em, <- Es.
    exact V.
Qed.

(** X2. Adding a triple that is not yet among the entries and removing
    it again restores the entries exactly; the removal returns true. *)
Theorem add_remove_round_trip (a : Alarm) (h m s : Z) (y : Sys) :
  list_contains (h, m, s) (alarms a) = false ->
  (add_alarm h m s ;; remove_alarm h m s) (a, y) = (Ok true, (a, y)).
Proof.
  intros H. destruct a as [l]. cbn [alarms] in H.
  unfold bind. rewrite add_alarm_run. cbn [alarms].
  unfold remove_alarm, bind, get_self, set_self, ret. cbn [fst snd alarms].
  rewrite list_contains_app. cbn [list_contains].
  rewrite hms_eqb_refl, orb_true_r.
  match goal with
  | |- context [list_remove ?x ?k] =>
      replace (list_remove x k) with (Some l)
        by (symmetry; exact (list_remove_snoc_absent _ _ H))
  end.
  reflexivity.
Qed.

(** X2 with 6:30:00 added to an alarm that holds 7:00:00. *)
Lemma add_remove_round_trip_witness :
  (add_alarm 6 30 0 ;; remove_alarm 6 30 0) (mk_Alarm [(7, 0, 0)], sys0)
  = (Ok true, (mk_Alarm [(7, 0, 0)], sys0)).
Proof.
  apply (add_remove_round_trip (mk_Alarm [(7, 0, 0)]) 6 30 0 sys0). reflexivity.
Defined.

(** X3. [remove_alarm] takes away at most one entry: when it returns true
    the triple has one occurrence less and there is one entry less, when
    it returns false nothing has changed, and in both cases every other
    triple occurs as often as before. *)
Theorem remove_alarm_one_occurrence (a : Alarm) (h m s : Z) (y : Sys) :
  exists b a',
    remove_alarm h m s (a, y) = (Ok b, (a', y))
    /\ (forall z, occurrences z (alarms a) =
                  (occurrences z (alarms a')
                   + (if b && hms_eqb (h, m, s) z then 1 else 0))%nat)
    /\ List.length (alarms a) =
       (List.length (alarms a') + (if b then 1 else 0))%nat.
Proof.
  destruct (list_contains (h, m, s) (alarms a)) eqn:C.
  - destruct (remove_alarm_hit h m s a y C) as (l1 & l2 & E & _ & R).
    exists true, (mk_Alarm (l1 ++ l2)). split; [exact R | ].
    cbn [alarms andb]. rewrite E. split.
    + intros z. rewrite !occurrences_app, occurrences_cons. lia.
    + rewrite !length_app. simpl. lia.
  - exists false, a. split; [apply remove_alarm_miss; exact C | ].
    cbn [andb]. split; [intros z | ]; lia.
Qed.

Lemma remove_times_step (n : nat) (h m s : Z) (st : Alarm * Sys) :
  remove_times (Datatypes.S n) h m s st =
  match remove_alarm h m s st with
  | (Ok b, st1) =>
      match remove_times n h m s st1 with
      | (Ok c, st2) => (Ok ((if b then 1 else 0) + c)%nat, st2)
      | (Raise e, st2) => (Raise e, st2)
      end
  | (Raise e, st1) => (Raise e, st1)
  end.
Proof.
  cbn [remove_times]. unfold bind at 1.
  destruct (remove_alarm h m s st) as [[b | e] st1]; [ | reflexivity].
  unfold bind, ret.
  destruct (remove_times n h m s st1) as [[c | e] st2]; reflexivity.
Qed.

(** X4. An alarm set [k] times is removed by [k] calls of [remove_alarm]:
    of [n >= k] calls in a row exactly [k] return true, afterwards the
    triple is absent, and every other triple occurs as often as before. *)
Theorem remove_until_absent (n : nat) (a : Alarm) (h m s : Z) (y : Sys) :
  (occurrences (h, m, s) (alarms a) <= n)%nat ->
  exists a',
    remove_times n h m s (a, y) = (Ok (occurrences (h, m, s) (alarms a)), (a', y))
    /\ list_contains (h, m, s) (alarms a') = false
    /\ (forall z, z <> (h, m, s) ->
                  occurrences z (alarms a') = occurrences z (alarms a)).
Proof.
  revert a. induction n as [| n IH]; intros a Hn.
  - exists a. split; [ | split ].
    + replace (occurrences (h, m, s) (alarms a)) with O by lia. reflexivity.
    + destruct (list_contains (h, m, s) (alarms a)) eqn:C; [ | reflexivity].
      apply list_contains_occurrences in C. lia.
    + reflexivity.
  - destruct (list_contains (h, m, s) (alarms a)) eqn:C.
    + destruct (remove_alarm_hit h m s a y C) as (l1 & l2 & E & _ & R).
      assert (O1 : occurrences (h, m, s) (alarms a) =
                   Datatypes.S (occurrences (h, m, s) (l1 ++ l2))).
      { rewrite E, !occurrences_app, occurrences_cons, hms_eqb_refl. lia. }
      destruct (IH (mk_Alarm (l1 ++ l2))) as (a' & T & A & F).
      { cbn [alarms]. lia. }
      exists a'. split; [ | split; [exact A | ] ].
      * rewrite remove_times_step, R, T. cbn [alarms]. rewrite O1. reflexivity.
      * intros z Nz. rewrite (F z Nz). cbn [alarms].
        rewrite E, !occurrences_app, occurrences_cons.
        destruct (hms_eqb (h, m, s) z) eqn:Q; [ | reflexivity].
        apply hms_eqb_eq in Q. congruence.
    + destruct (IH a) as (a' & T & A & F);
        [rewrite (occurrences_absent _ _ C); lia | ].
      exists a'. split; [ | split; [exact A | exact F] ].
      rewrite remove_times_step, (remove_alarm_miss h m s a y C), T.
      reflexivity.
Qed.

(** X4 on an alarm holding 7:00:00 twice and 8:15:00 once, with three
    calls. *)
Lemma remove_until_absent_witness :
  let a := mk_Alarm [(7, 0, 0); (8, 15, 0); (7, 0, 0)] in
  exists a',
    remove_times 3 7 0 0 (a, sys0) = (Ok 2%nat, (a', sys0))
    /\ list_contains (7, 0, 0) (alarms a') = false
    /\ occurrences (8, 15, 0) (alarms a') = 1%nat.
Proof.
  intros a.
  destruct (remove_until_absent 3 a 7 0 0 sys0) as (a' & T & A & F).
  - vm_compute. lia.
  - exists a'. split; [exact T | split; [exact A | ] ].
    apply (F (8, 15, 0)). discriminate.
Defined.

(* ================================================================== *)
(** ** Further properties: the digital text *)

Lemma forallb_range2 (P : Z -> Z -> bool) (n m : nat) :
  forallb (fun a => forallb (P a) (range m)) (range n) = true ->
  forall a b, 0 <= a < Z.of_nat n -> 0 <= b < Z.of_nat m -> P a b = true.
Proof.
  intros Hall a b Ha Hb.
  pose proof (forallb_range _ _ Hall a Ha) as H1.
  exact (forallb_range _ _ H1 b Hb).
Qed.

Lemma two_digits_inj (a b : Z) :
  0 <= a < 100 -> 0 <= b < 100 -> two_digits a = two_digits b -> a = b.
Proof.
  intros Ha Hb E.
  assert (Hall : forallb (fun x => forallb (fun y =>
            implb (String.eqb (two_digits x) (two_digits y)) (x =? y))
            (range 100)) (range 100) = true)
    by (vm_compute; reflexivity).
  pose proof (forallb_range2 _ _ _ Hall a b Ha Hb) as H. cbv beta in H.
  rewrite E, String.eqb_refl in H. apply Z.eqb_eq. exact H.
Qed.

Lemma hour_12h_inj (a b : Z) :
  0 <= a < 24 -> 0 <= b < 24 ->
  display_hour a = display_hour b -> am_pm_suffix a = am_pm_suffix b -> a = b.
Proof.
  intros Ha Hb E1 E2.
  assert (Hall : forallb (fun x => forallb (fun y =>
            implb ((display_hour x =? display_hour y)
                   && String.eqb (am_pm_suffix x) (am_pm_suffix y)) (x =? y))
            (range 24)) (range 24) = true)
    by (vm_compute; reflexivity).
  pose proof (forallb_range2 _ _ _ Hall a b Ha Hb) as H. cbv beta in H.
  rewrite E1, E2, Z.eqb_refl, String.eqb_refl in H. apply Z.eqb_eq. exact H.
Qed.

Lemma two_digits_prefix (a b : Z) (r r' : string) :
  (two_digits a ++ r = two_digits b ++ r')%string ->
  two_digits a = two_digits b /\ r = r'.
Proof.
  unfold two_digits. cbn [append]. intros E. injection E as E1 E2 E3.
  rewrite E1, E2. split; [reflexivity | exact E3].
Qed.

Lemma append_same_prefix (c r r' : string) :
  (c ++ r = c ++ r')%string -> r = r'.
Proof.
  induction c as [| x c IH]; cbn [append]; intros E.
  - exact E.
  - injection E as E. exact (IH E).
Qed.

Lemma spec_24h_inj (t1 t2 : datetime) :
  valid_time t1 -> valid_time t2 -> spec_24h t1 = spec_24h t2 -> t1 = t2.
Proof.
  intros (Hh1 & Hm1 & Hs1) (Hh2 & Hm2 & Hs2) E. unfold spec_24h in E.
  apply two_digits_prefix in E. destruct E as [Eh E].
  apply append_same_prefix in E.
  apply two_digits_prefix in E. destruct E as [Em E].
  apply append_same_prefix in E. rename E into Es.
  apply two_digits_inj in Eh, Em, Es; try lia.
  destruct t1, t2. cbn [hour minute second] in *. subst. reflexivity.
Qed.

Lemma spec_12h_inj (t1 t2 : datetime) :
  valid_time t1 -> valid_time t2 -> spec_12h t1 = spec_12h t2 -> t1 = t2.
Proof.
  intros (Hh1 & Hm1 & Hs1) (Hh2 & Hm2 & Hs2) E. unfold spec_12h in E.
  apply two_digits_prefix in E. destruct E as [Eh E].
  apply append_same_prefix in E.
  apply two_digits_prefix in E. destruct E as [Em E].
  apply append_same_prefix in E.
  apply two_digits_prefix in E. destruct E as [Es E].
  apply append_same_prefix in E. rename E into Ea.
  destruct (display_hour_code (hour t1) Hh1) as [_ R1].
  destruct (display_hour_code (hour t2) Hh2) as [_ R2].
  apply two_digits_inj in Eh, Em, Es; try lia.
  pose proof (hour_12h_inj _ _ Hh1 Hh2 Eh Ea) as E0.
  destruct t1, t2. cbn [hour minute second] in *. subst. reflexivity.
Qed.

Lemma spec_24h_length (t : datetime) : String.length (spec_24h t) = 8%nat.
Proof. reflexivity. Qed.

Lemma spec_12h_length (t : datetime) : String.length (spec_12h t) = 11%nat.
Proof.
  unfold spec_12h, am_pm_suffix, two_digits. cbn [append].
  destruct (hour t <? 12); reflexivity.
Qed.

(** X5. For times in the ranges of a [datetime] the digital text has a
    fixed width, 11 characters in the ["12h"] format and 8 in any other,
    and it determines the time: two different times never give the same
    text (in 12-hour format the AM/PM suffix tells the half-days apart). *)
Theorem digital_text_determines_time (f : string) (t1 t2 : datetime) :
  valid_time t1 -> valid_time t2 ->
  String.length (time_str f t1) = (if String.eqb f "12h" then 11 else 8)%nat
  /\ (time_str f t1 = time_str f t2 -> t1 = t2).
Proof.
  intros V1 V2. destruct (String.eqb f "12h") eqn:F.
  - apply String.eqb_eq in F. subst f.
    change "12h"%string with TimeFormat.HOURS_12.
    rewrite !time_str_12h by assumption.
    split; [apply spec_12h_length | apply spec_12h_inj; assumption].
  - rewrite !(time_str_other_format f) by exact F.
    rewrite !time_str_24h by assumption.
    split; [apply spec_24h_length | apply spec_24h_inj; assumption].
Qed.

(** X5 at 00:05:09 and 12:05:09, which differ in 12-hour format only by
    the suffix. *)
Lemma digital_text_determines_time_witness :
  String.length (time_str "12h" (mk_datetime 0 5 9)) = 11%nat
  /\ time_str "12h" (mk_datetime 0 5 9) <> time_str "12h" (mk_datetime 12 5 9).
Proof.
  destruct (digital_text_determines_time "12h" (mk_datetime 0 5 9) (mk_datetime 12 5 9))
    as [L I].
  - unfold valid_time; simpl; lia.
  - unfold valid_time; simpl; lia.
  - split; [exact L | ]. intros E. specialize (I E). discriminate.
Defined.

(* ================================================================== *)
(** ** Further properties: the analog angles *)

Lemma number_eqb_refl (a : number) : number_eqb a a = true.
Proof.
  destruct a as [z | f]; simpl.
  - apply Z.eqb_refl.
  - apply FloatAxioms.Leibniz.eqb_spec. reflexivity.
Qed.

Lemma same_image_related_spec (f : Z -> number) (R : Z -> Z -> bool) (n : nat) :
  same_image_related f R n = true ->
  forall a b, 0 <= a < Z.of_nat n -> 0 <= b < Z.of_nat n -> f a = f b -> R a b = true.
Proof.
  unfold same_image_related. intros Hall a b Ha Hb E.
  assert (In_range : forall z, 0 <= z < Z.of_nat n -> In z (range n)).
  { intros z Hz. unfold range. apply in_map_iff. exists (Z.to_nat z).
    split; [lia | apply in_seq; lia]. }
  rewrite forallb_forall in Hall.
  specialize (Hall (a, f a) (in_map _ _ _ (In_range a Ha))).
  rewrite forallb_forall in Hall.
  specialize (Hall (b, f b) (in_map _ _ _ (In_range b Hb))).
  cbn [fst snd] in Hall. rewrite E, number_eqb_refl in Hall. exact Hall.
Qed.

(** At the same second, equal minute angles mean equal minutes. *)
Lemma minute_angle_inj (s m1 m2 : Z) :
  0 <= s < 60 -> 0 <= m1 < 60 -> 0 <= m2 < 60 ->
  minute_angle (mk_datetime 0 m1 s) = minute_angle (mk_datetime 0 m2 s) -> m1 = m2.
Proof.
  intros Hs H1 H2 E.
  assert (Hall : forallb (fun c =>
            same_image_related (fun a => minute_angle (mk_datetime 0 a c)) Z.eqb 60)
            (range 60) = true)
    by (vm_compute; reflexivity).
  pose proof (forallb_range _ _ Hall s Hs) as H. cbv beta in H.
  apply Z.eqb_eq.
  exact (same_image_related_spec _ _ _ H m1 m2 H1 H2 E).
Qed.

(** At the same minute, equal hour angles mean the same hour of the half
    day. *)
Lemma hour_angle_inj (m h1 h2 : Z) :
  0 <= m < 60 -> 0 <= h1 < 24 -> 0 <= h2 < 24 ->
  hour_angle (mk_datetime h1 m 0) = hour_angle (mk_datetime h2 m 0) ->
  h1 mod 12 = h2 mod 12.
Proof.
  intros Hm H1 H2 E.
  assert (Hall : forallb (fun c =>
            same_image_related (fun a => hour_angle (mk_datetime a c 0))
              (fun a b => a mod 12 =? b mod 12) 24)
            (range 60) = true)
    by (vm_compute; reflexivity).
  pose proof (forallb_range _ _ Hall m Hm) as H. cbv beta in H.
  apply Z.eqb_eq.
  exact (same_image_related_spec _ _ _ H h1 h2 H1 H2 E).
Qed.

(** X6. The three angles that [AnalogWatch.update] computes show the time
    up to the half day: two times in the ranges of a [datetime] give the
    same three angles exactly when they agree in second, minute and hour
    modulo 12. *)
Theorem analog_angles_determine_time (t1 t2 : datetime) :
  valid_time t1 -> valid_time t2 ->
  (second_angle t1 = second_angle t2
   /\ minute_angle t1 = minute_angle t2
   /\ hour_angle t1 = hour_angle t2)
  <-> (hour t1 mod 12 = hour t2 mod 12
       /\ minute t1 = minute t2
       /\ second t1 = second t2).
Proof.
  intros (Hh1 & Hm1 & Hs1) (Hh2 & Hm2 & Hs2).
  destruct t1 as [h1 m1 s1], t2 as [h2 m2 s2]. cbn [hour minute second] in *.
  split.
  - intros (Es & Em & Eh).
    assert (S12 : s1 = s2).
    { unfold second_angle, py_mul in Es. cbn [second] in Es.
      injection Es as Es. lia. }
    subst s2.
    assert (M12 : m1 = m2) by (apply (minute_angle_inj s1); assumption).
    subst m2.
    split; [ | split; reflexivity].
    apply (hour_angle_inj m1); assumption.
  - intros (Eh & Em & Es). subst m2 s2.
    unfold second_angle, minute_angle, hour_angle. cbn [hour minute second].
    rewrite Eh. repeat split.
Qed.

(** X6 at 01:30:15 and 13:30:15. *)
Lemma analog_angles_determine_time_witness :
  hour_angle (mk_datetime 1 30 15) = hour_angle (mk_datetime 13 30 15)
  /\ minute_angle (mk_datetime 1 30 15) = minute_angle (mk_datetime 13 30 15).
Proof.
  destruct (analog_angles_determine_time (mk_datetime 1 30 15) (mk_datetime 13 30 15))
    as [_ B].
  - unfold valid_time; simpl; lia.
  - unfold valid_time; simpl; lia.
  - destruct B as (_ & Em & Eh); [ | split; assumption].
    repeat split.
Defined.

Lemma increasing_seq (g : nat -> number) (n s : nat) :
  increasing (map g (seq s n)) = true ->
  forall i j, (s <= i)%nat -> (i < j)%nat -> (j < s + n)%nat ->
              number_ltb (g i) (g j) = true.
Proof.
  revert s. induction n as [| n IH]; intros s Hinc i j Hi Hij Hj; [lia | ].
  cbn [seq map increasing] in Hinc. apply andb_true_iff in Hinc.
  destruct Hinc as [Hhead Htail].
  destruct (Nat.eq_dec i s) as [-> | Ne].
  - rewrite forallb_forall in Hhead. apply Hhead.
    apply in_map. apply in_seq. lia.
  - apply (IH (Datatypes.S s) Htail); lia.
Qed.

Lemma div_mod_60 (a b : Z) :
  0 <= b < 60 -> (a * 60 + b) / 60 = a /\ (a * 60 + b) mod 60 = b.
Proof.
  intros Hb. rewrite Z.add_comm. split.
  - rewrite Z.div_add by lia. rewrite Z.div_small by lia. lia.
  - rewrite Z.mod_add by lia. apply Z.mod_small. lia.
Qed.

Lemma minute_angle_at_time (t : datetime) :
  0 <= second t < 60 ->
  minute_angle_at (minute t * 60 + second t) = minute_angle t.
Proof.
  intros Hs. unfold minute_angle_at, minute_angle. cbn [minute second].
  destruct (div_mod_60 (minute t) (second t) Hs) as [-> ->]. reflexivity.
Qed.

Lemma hour_angle_at_time (t : datetime) :
  0 <= minute t < 60 ->
  hour_angle_at ((hour t mod 12) * 60 + minute t) = hour_angle t.
Proof.
  intros Hm. unfold hour_angle_at, hour_angle. cbn [hour minute].
  destruct (div_mod_60 (hour t mod 12) (minute t) Hm) as [-> ->].
  rewrite Z.mod_mod by lia. reflexivity.
Qed.

Lemma minute_angle_at_increasing (a b : Z) :
  0 <= a -> a < b -> b < 3600 ->
  number_ltb (minute_angle_at a) (minute_angle_at b) = true.
Proof.
  intros Ha Hab Hb.
  assert (Hinc : increasing (map (fun k => minute_angle_at (Z.of_nat k)) (seq 0 3600)) = true)
    by (vm_compute; reflexivity).
  pose proof (increasing_seq _ _ _ Hinc (Z.to_nat a) (Z.to_nat b)) as H.
  cbv beta in H. rewrite !Z2Nat.id in H by lia. apply H; lia.
Qed.

Lemma hour_angle_at_increasing (a b : Z) :
  0 <= a -> a < b -> b < 720 ->
  number_ltb (hour_angle_at a) (hour_angle_at b) = true.
Proof.
  intros Ha Hab Hb.
  assert (Hinc : increasing (map (fun k => hour_angle_at (Z.of_nat k)) (seq 0 720)) = true)
    by (vm_compute; reflexivity).
  pose proof (increasing_seq _ _ _ Hinc (Z.to_nat a) (Z.to_nat b)) as H.
  cbv beta in H. rewrite !Z2Nat.id in H by lia. apply H; lia.
Qed.

(** X7. The rounding of the floats never turns a hand back: of two times
    in the ranges of a [datetime], the one later in the hour has the
    strictly larger minute angle, and the one later in the half day (by
    hour modulo 12 and minute) has the strictly larger hour angle, under
    Python's [<] on the computed floats. *)
Theorem hands_move_forward (t1 t2 : datetime) :
  valid_time t1 -> valid_time t2 ->
  (minute t1 * 60 + second t1 < minute t2 * 60 + second t2 ->
   number_ltb (minute_angle t1) (minute_angle t2) = true)
  /\ ((hour t1 mod 12) * 60 + minute t1 < (hour t2 mod 12) * 60 + minute t2 ->
      number_ltb (hour_angle t1) (hour_angle t2) = true).
Proof.
  intros (Hh1 & Hm1 & Hs1) (Hh2 & Hm2 & Hs2). split; intros L.
  - rewrite <- (minute_angle_at_time t1 Hs1), <- (minute_angle_at_time t2 Hs2).
    apply minute_angle_at_increasing; lia.
  - rewrite <- (hour_angle_at_time t1 Hm1), <- (hour_angle_at_time t2 Hm2).
    pose proof (Z.mod_pos_bound (hour t1) 12 ltac:(lia)).
    pose proof (Z.mod_pos_bound (hour t2) 12 ltac:(lia)).
    apply hour_angle_at_increasing; lia.
Qed.

(** X7 across a minute boundary and across an hour boundary. *)
Lemma hands_move_forward_witness :
  number_ltb (minute_angle (mk_datetime 9 29 59)) (minute_angle (mk_datetime 10 30 0)) = true
  /\ number_ltb (hour_angle (mk_datetime 9 29 59)) (hour_angle (mk_datetime 10 30 0)) = true.
Proof.
  destruct (hands_move_forward (mk_datetime 9 29 59) (mk_datetime 10 30 0)) as [A B].
  - unfold valid_time; simpl; lia.
  - unfold valid_time; simpl; lia.
  - split; [apply A | apply B]; vm_compute; reflexivity.
Defined.

(* ================================================================== *)
(** ** Further properties: the run loop *)

Section RunInversion.

Variable env : Env.
Variable S : Type.
Variables setup update : M S unit.

Lemma run_loop_inv (fuel : nat) (dt : number) (st0 st' : S * Sys) (r : result unit) :
  run_loop env S update fuel dt st0 = Some (r, st') ->
  exists n stn e,
    (n < fuel)%nat
    /\ ticks env update n dt st0 = Some stn
    /\ tick env S update dt stn = (Raise e, st')
    /\ r = (if is_termination e then Ok tt else Raise e).
Proof.
  revert st0. induction fuel as [| fuel IH]; intros st0 H; [discriminate | ].
  cbn [run_loop] in H.
  destruct (tick env S update dt st0) as [[[] | e] st1] eqn:T.
  - destruct (IH st1 H) as (n & stn & e & Hn & Tn & X & R).
    exists (Datatypes.S n), stn, e. repeat split; try assumption; try lia.
    cbn [ticks]. rewrite T. exact Tn.
  - exists O, st0, e. split; [lia | split; [reflexivity | ] ].
    destruct (is_termination e); injection H as <- <-; split; reflexivity || exact T.
Qed.

(** Without signals, with an interval [time.sleep] accepts and an
    [update] that always returns, every tick completes. *)
Lemma ticks_total (dt : number) :
  (forall k, signal env k = None) ->
  sleep_check dt = None ->
  (forall st, exists st1, update st = (Ok tt, st1)) ->
  forall n st, exists stn, ticks env update n dt st = Some stn.
Proof.
  intros Q B U n. induction n as [| n IH]; intros st.
  - exists st. reflexivity.
  - destruct (U st) as [st1 U1].
    pose proof (tick_completes env S update dt st st1 U1 (Q _) B (Q _)) as T.
    destruct (IH (fst st1, advance (snd st1) 0 2 [ScreenUpdate; Sleep dt])) as [stn Tn].
    exists stn. cbn [ticks]. rewrite T. exact Tn.
Qed.

Lemma run_forever (fuel : nat) (dt : number) (st st0 : S * Sys) :
  (forall k, signal env k = None) ->
  sleep_check dt = None ->
  (forall a, exists a1, update a = (Ok tt, a1)) ->
  setup st = (Ok tt, st0) ->
  run env S setup update fuel dt st = None.
Proof.
  intros Q B U U0. unfold run. rewrite U0.
  destruct (ticks_total dt Q B U fuel st0) as [stn T].
  exact (run_loop_out_of_fuel env S update fuel dt st0 stn T).
Qed.

End RunInversion.

(** X8. [Watch.run] ends only through an exception.  If it has ended,
    then either [setup] raised and that exception left [run], or [setup]
    returned, some number of ticks completed and the next tick raised:
    [run] returned normally if that was [KeyboardInterrupt] or
    [turtle.Terminator], and passed the exception on otherwise.  So a
    termination signal raised in the loop never leaves [run], and no other
    exception is swallowed. *)
Theorem run_ends_only_by_exception (env : Env) (S : Type) (setup update : M S unit)
    (fuel : nat) (dt : number) (st st' : S * Sys) (r : result unit) :
  run env S setup update fuel dt st = Some (r, st') ->
  (exists e, setup st = (Raise e, st') /\ r = Raise e)
  \/ (exists st0 n stn e,
        setup st = (Ok tt, st0)
        /\ (n < fuel)%nat
        /\ ticks env update n dt st0 = Some stn
        /\ tick env S update dt stn = (Raise e, st')
        /\ r = (if is_termination e then Ok tt else Raise e)).
Proof.
  unfold run. intros H.
  destruct (setup st) as [[[] | e] st0] eqn:U.
  - right. destruct (run_loop_inv env S update fuel dt st0 st' r H)
      as (n & stn & e & Hn & T & X & R).
    exists st0, n, stn, e. repeat split; assumption.
  - left. exists e. injection H as <- <-. split; reflexivity.
Qed.

(** X8 on the default analog watch interrupted during its third sleep:
    the normal return came from a termination signal within ten ticks. *)
Lemma run_ends_only_by_exception_witness :
  let env := ctrl_c_at 5 seconds_from_7 in
  let r := run env AnalogWatch AnalogWatch_setup (AnalogWatch_update env) 10
             default_update_interval (default_analog_watch, sys0) in
  option_map fst r = Some (Ok tt)
  /\ exists n e, (n < 10)%nat /\ is_termination e = true.
Proof.
  intros env r.
  pose (st' := match r with
               | Some x => snd x
               | None => (default_analog_watch, sys0)
               end).
  assert (H : r = Some (Ok tt, st')) by (vm_compute; reflexivity).
  split; [rewrite H; reflexivity | ].
  destruct (run_ends_only_by_exception env AnalogWatch AnalogWatch_setup
              (AnalogWatch_update env) 10 default_update_interval
              (default_analog_watch, sys0) st' (Ok tt) H)
    as [(e & U & R) | (st0 & n & stn & e & U & Hn & T & X & R)].
  - discriminate R.
  - exists n, e. split; [exact Hn | ].
    destruct (is_termination e); [reflexivity | discriminate R].
Defined.

Lemma AnalogWatchWithAlarm_update_run (env : Env) (w : AnalogWatchWithAlarm) (y : Sys) :
  AnalogWatchWithAlarm_update env (w, y) =
    (Ok tt, (w, advance y 2 0
       (analog_entries (analog w) (clock env (now_reads y))
        ++ trigger_entries
             (list_contains (hms_of (clock env (Datatypes.S (now_reads y))))
                (alarms (alarm w)))))).
Proof.
  unfold AnalogWatchWithAlarm_update, bind, zoom. cbn [fst snd].
  rewrite AnalogWatch_update_run. cbn [fst snd].
  replace (set_analog (analog w) w) with w by (destruct w; reflexivity).
  rewrite check_and_trigger_alarm_run. rewrite advance_advance. reflexivity.
Qed.

Lemma DigitalWatch_setup_run (env : Env) (self : DigitalWatch) (y : Sys) :
  signal env (lib_calls y) = None ->
  signal env (Datatypes.S (lib_calls y)) = None ->
  signal env (Datatypes.S (Datatypes.S (lib_calls y))) = None ->
  DigitalWatch_setup env (self, y) =
    (Ok tt, (self, advance y 0 3
       [TurtlePenup (digital_turtle self);
        TurtleGoto (digital_turtle self) 0 0;
        TurtleColor (digital_turtle self) (digit_color (digital_theme self))])).
Proof.
  intros S0 S1 S2. destruct self, y.
  unfold DigitalWatch_setup, advance, bind, get_self, lib, add_log. simpl in *.
  rewrite S0. simpl. rewrite S1. simpl. rewrite S2. simpl.
  repeat rewrite <- app_assoc. reflexivity.
Qed.

(** X9. Nothing but an exception stops a watch: as long as no library
    call raises, and with an interval of at most 10^9 seconds that passes
    the checks of [time.sleep], [run] has not returned after any number of
    ticks, for the analog watch, the digital watch and the analog watch
    with alarm, from every state. *)
Theorem watches_run_until_signalled (clk : nat -> datetime) (fuel : nat) (dt : number) :
  ordinary_interval dt = true ->
  (forall w y,
      run (quiet clk) AnalogWatch AnalogWatch_setup
        (AnalogWatch_update (quiet clk)) fuel dt (w, y) = None)
  /\ (forall w y,
        run (quiet clk) DigitalWatch (DigitalWatch_setup (quiet clk))
          (DigitalWatch_update (quiet clk)) fuel dt (w, y) = None)
  /\ (forall w y,
        run (quiet clk) AnalogWatchWithAlarm AnalogWatchWithAlarm_setup
          (AnalogWatchWithAlarm_update (quiet clk)) fuel dt (w, y) = None).
Proof.
  intros O. pose proof (ordinary_interval_check dt O) as B.
  split; [ | split ]; intros w y.
  - eapply run_forever; try exact B.
    + reflexivity.
    + intros [a z]. eexists. apply AnalogWatch_update_run.
    + reflexivity.
  - eapply run_forever; try exact B.
    + reflexivity.
    + intros [a z]. eexists. apply DigitalWatch_update_run; reflexivity.
    + apply DigitalWatch_setup_run; reflexivity.
  - eapply run_forever; try exact B.
    + reflexivity.
    + intros [a z]. eexists. apply AnalogWatchWithAlarm_update_run.
    + reflexivity.
Qed.

(** X9 with the default interval of one second. *)
Lemma watches_run_until_signalled_witness :
  run (quiet noon) AnalogWatch AnalogWatch_setup
    (AnalogWatch_update (quiet noon)) 5 default_update_interval
    (default_analog_watch, sys0) = None.
Proof.
  apply (proj1 (watches_run_until_signalled noon 5 default_update_interval eq_refl)).
Defined.

(* ================================================================== *)
(** ** Further properties: the alarm watch *)

Lemma returns_impl {A} (r : result A) (P Q : A -> Prop) :
  (forall a, P a -> Q a) -> returns r P -> returns r Q.
Proof.
  intros I. destruct r; simpl; [apply I | tauto].
Qed.

(** X10. Setting an alarm on the watch and updating at that time calls the
    trigger hook: [WatchWithAlarm.add_alarm] only appends the triple to
    the alarm's entries, and an update whose alarm check reads the time
    [h:m:s] performs the three hand updates followed by the hook.  The
    update leaves the watch, its alarm included, as it was: the alarm
    is not consumed and triggers again on a later update at that time. *)
Theorem alarm_set_then_update_triggers (env : Env) (w : AnalogWatchWithAlarm)
    (y : Sys) (h m s : Z) :
  hms_of (clock env (Datatypes.S (now_reads y))) = (h, m, s) ->
  exists w1,
    WatchWithAlarm_add_alarm h m s (w, y) = (Ok tt, (w1, y))
    /\ analog w1 = analog w
    /\ alarms (alarm w1) = alarms (alarm w) ++ [(h, m, s)]
    /\ AnalogWatchWithAlarm_update env (w1, y) =
         (Ok tt, (w1, advance y 2 0
            (analog_entries (analog w) (clock env (now_reads y)) ++ [TriggerAlarm]))).
Proof.
  intros T.
  exists (set_alarm (mk_Alarm (alarms (alarm w) ++ [(h, m, s)])) w).
  split; [reflexivity | split; [reflexivity | split; [reflexivity | ] ] ].
  rewrite AnalogWatchWithAlarm_update_run. rewrite T.
  cbn [set_alarm alarm analog alarms].
  rewrite list_contains_app. cbn [list_contains].
  rewrite hms_eqb_refl, orb_true_r. reflexivity.
Qed.

(** X10 with an alarm at 07:00:01 and a clock that shows 07:00:00 and
    then 07:00:01. *)
Lemma alarm_set_then_update_triggers_witness :
  let env := quiet seconds_from_7 in
  let w := mk_AnalogWatchWithAlarm default_analog_watch Alarm_init in
  let w1 := state_after (WatchWithAlarm_add_alarm 7 0 1) w in
  log (snd (snd (AnalogWatchWithAlarm_update env (w1, sys0)))) =
    analog_entries default_analog_watch (mk_datetime 7 0 0) ++ [TriggerAlarm].
Proof.
  intros env w w1.
  destruct (alarm_set_then_update_triggers env w sys0 7 0 1 eq_refl)
    as (w2 & A & _ & _ & U).
  assert (E : w1 = w2).
  { unfold w1, state_after. rewrite A. reflexivity. }
  rewrite E, U. reflexivity.
Defined.

(** X11. Whenever the constructor of [AnalogWatchWithAlarm] returns a
    watch, in any outside and for any theme and radius, that watch has no
    alarm set; and a watch without alarms never calls the trigger hook:
    whatever the time, its update is the three hand updates and nothing
    else. *)
Theorem fresh_alarm_watch_never_triggers (env0 : Env) (theme : Theme) (r : number)
    (y0 : Sys) (w : AnalogWatchWithAlarm) (st : unit * Sys) :
  AnalogWatchWithAlarm_init env0 theme r (tt, y0) = (Ok w, st) ->
  alarms (alarm w) = []
  /\ forall env y,
       AnalogWatchWithAlarm_update env (w, y) =
         (Ok tt, (w, advance y 2 0
            (analog_entries (analog w) (clock env (now_reads y))))).
Proof.
  intros I.
  assert (E : alarms (alarm w) = []).
  { unfold AnalogWatchWithAlarm_init, bind, ret in I.
    destruct (AnalogWatch_init env0 theme r (tt, y0)) as [[a | e] st1];
      [ | discriminate].
    injection I as <- _. reflexivity. }
  split; [exact E | ]. intros env y.
  rewrite AnalogWatchWithAlarm_update_run, E. cbn [list_contains trigger_entries].
  rewrite app_nil_r. reflexivity.
Qed.

(** X11 for the watch that [AnalogWatchWithAlarm()] constructs with a
    light theme and radius 200, updated at 07:00:00. *)
Lemma fresh_alarm_watch_never_triggers_witness :
  let fresh := mk_AnalogWatchWithAlarm default_analog_watch Alarm_init in
  fst (AnalogWatchWithAlarm_init (quiet noon) LightTheme default_radius (tt, sys0))
    = Ok fresh
  /\ log (snd (snd (AnalogWatchWithAlarm_update (quiet seconds_from_7) (fresh, sys0))))
     = analog_entries default_analog_watch (mk_datetime 7 0 0).
Proof.
  intros fresh.
  pose (st := snd (AnalogWatchWithAlarm_init (quiet noon) LightTheme default_radius
                     (tt, sys0))).
  assert (I : AnalogWatchWithAlarm_init (quiet noon) LightTheme default_radius (tt, sys0)
              = (Ok fresh, st)) by (vm_compute; reflexivity).
  destruct (fresh_alarm_watch_never_triggers (quiet noon) LightTheme default_radius
              sys0 fresh st I) as [_ U].
  split; [rewrite I; reflexivity | ].
  rewrite U. reflexivity.
Defined.

(* ================================================================== *)
(** ** Further properties: the digital watch and exceptions of turtle calls *)

(** X12. The [try] of [Watch.run] does not cover [setup]: when the first
    turtle call of [DigitalWatch.setup] is interrupted, the exception
    leaves [run], even if it is [KeyboardInterrupt] or
    [turtle.Terminator], and nothing has been drawn. *)
Theorem digital_setup_signal_escapes (env : Env) (self : DigitalWatch) (y : Sys)
    (fuel : nat) (dt : number) (e : exn) :
  signal env (lib_calls y) = Some e ->
  run env DigitalWatch (DigitalWatch_setup env) (DigitalWatch_update env)
    fuel dt (self, y) = Some (Raise e, (self, advance y 0 1 [])).
Proof.
  intros G. apply run_setup_raises.
  destruct self, y. unfold DigitalWatch_setup, bind, get_self, lib, advance.
  simpl in *. rewrite G. rewrite app_nil_r. reflexivity.
Qed.

(** X12 with a window that is already closed when [run] starts. *)
Lemma digital_setup_signal_escapes_witness :
  option_map fst
    (run (closed_at 0 noon) DigitalWatch (DigitalWatch_setup (closed_at 0 noon))
       (DigitalWatch_update (closed_at 0 noon)) 3 default_update_interval
       (mk_DigitalWatch LightTheme "24h" 0%nat, sys0))
  = Some (Raise Terminator).
Proof.
  rewrite (digital_setup_signal_escapes (closed_at 0 noon)
             (mk_DigitalWatch LightTheme "24h" 0%nat) sys0 3
             default_update_interval Terminator eq_refl).
  reflexivity.
Defined.

(** X13. When [DigitalWatch.setup] has gone through and the [clear] call
    of the first update raises, nothing is written; [run] then returns
    normally if the exception is [KeyboardInterrupt] or
    [turtle.Terminator], and passes on any other (such as the
    [tkinter.TclError] of a closed window).  The log holds the three calls
    of [setup] and no text. *)
Theorem digital_clear_raises (env : Env) (self : DigitalWatch) (y : Sys)
    (fuel : nat) (dt : number) (e : exn) :
  signal env (lib_calls y) = None ->
  signal env (1 + lib_calls y) = None ->
  signal env (2 + lib_calls y) = None ->
  signal env (3 + lib_calls y) = Some e ->
  run env DigitalWatch (DigitalWatch_setup env) (DigitalWatch_update env)
    (Datatypes.S fuel) dt (self, y) =
  Some (match e with
        | KeyboardInterrupt | Terminator => Ok tt
        | _ => Raise e
        end,
        (self, advance y 1 4
           [TurtlePenup (digital_turtle self);
            TurtleGoto (digital_turtle self) 0 0;
            TurtleColor (digital_turtle self) (digit_color (digital_theme self))])).
Proof.
  intros S0 S1 S2 S3.
  unfold run. rewrite (DigitalWatch_setup_run env self y S0 S1 S2).
  cbn [run_loop].
  assert (U : DigitalWatch_update env
                (self, advance y 0 3
                   [TurtlePenup (digital_turtle self);
                    TurtleGoto (digital_turtle self) 0 0;
                    TurtleColor (digital_turtle self) (digit_color (digital_theme self))])
              = (Raise e, (self, advance y 1 4
                   [TurtlePenup (digital_turtle self);
                    TurtleGoto (digital_turtle self) 0 0;
                    TurtleColor (digital_turtle self) (digit_color (digital_theme self))]))).
  { destruct self, y. unfold DigitalWatch_update, bind, get_self, now, lib, advance.
    simpl in *. rewrite S3. reflexivity. }
  rewrite (tick_update_raises env DigitalWatch (DigitalWatch_update env) dt _ _ e U).
  destruct e; reflexivity.
Qed.

(** X13 with Ctrl-C at the fourth library call. *)
Lemma digital_clear_raises_witness :
  option_map fst
    (run (ctrl_c_at 3 noon) DigitalWatch (DigitalWatch_setup (ctrl_c_at 3 noon))
       (DigitalWatch_update (ctrl_c_at 3 noon)) 3 default_update_interval
       (mk_DigitalWatch LightTheme "24h" 0%nat, sys0))
  = Some (Ok tt).
Proof.
  rewrite (digital_clear_raises (ctrl_c_at 3 noon)
             (mk_DigitalWatch LightTheme "24h" 0%nat) sys0 2
             default_update_interval KeyboardInterrupt
             eq_refl eq_refl eq_refl eq_refl).
  reflexivity.
Defined.

(* ================================================================== *)
(** ** Further properties: a signal always stops the analog watches *)

Section SignalStops.

Variable env : Env.
Variable S : Type.
Variable update : M S unit.
Variable dt : number.
Variable k : nat.
Variable e : exn.

(** The update returns and makes no library call. *)
Hypothesis update_silent :
  forall st, exists st1,
    update st = (Ok tt, st1) /\ lib_calls (snd st1) = lib_calls (snd st).
Hypothesis interval_ok : sleep_check dt = None.
Hypothesis signal_at : signal env k = Some e.
Hypothesis signal_kind : e = KeyboardInterrupt \/ e = Terminator.

Lemma run_loop_stops (n : nat) (st : S * Sys) :
  (k = lib_calls (snd st) + 2 * n \/ k = lib_calls (snd st) + 2 * n + 1)%nat ->
  (forall i, (lib_calls (snd st) <= i < k)%nat -> signal env i = None) ->
  exists st',
    forall fuel, (n < fuel)%nat ->
                 run_loop env S update fuel dt st = Some (Ok tt, st').
Proof.
  revert st. induction n as [| n IH]; intros st Hk Hq.
  - destruct (update_silent st) as (st1 & U & C).
    destruct Hk as [Hk | Hk].
    + assert (G : signal env (lib_calls (snd st1)) = Some e)
        by (rewrite C; replace (lib_calls (snd st)) with k by lia; exact signal_at).
      eexists. intros [| fuel] Hf; [lia | ]. cbn [run_loop].
      rewrite (tick_signal_commit env S update dt st st1 e U G).
      destruct signal_kind as [-> | ->]; reflexivity.
    + assert (G : signal env (lib_calls (snd st1)) = None)
        by (rewrite C; apply Hq; lia).
      assert (G' : signal env (Datatypes.S (lib_calls (snd st1))) = Some e)
        by (rewrite C; replace (Datatypes.S (lib_calls (snd st))) with k by lia;
            exact signal_at).
      eexists. intros [| fuel] Hf; [lia | ]. cbn [run_loop].
      rewrite (tick_signal_sleep env S update dt st st1 e U G interval_ok G').
      destruct signal_kind as [-> | ->]; reflexivity.
  - destruct (update_silent st) as (st1 & U & C).
    assert (G : signal env (lib_calls (snd st1)) = None)
      by (rewrite C; apply Hq; lia).
    assert (G' : signal env (Datatypes.S (lib_calls (snd st1))) = None)
      by (rewrite C; apply Hq; lia).
    pose proof (tick_completes env S update dt st st1 U G interval_ok G') as T.
    destruct (IH (fst st1, advance (snd st1) 0 2 [ScreenUpdate; Sleep dt]))
      as [st' R].
    + cbn [snd advance lib_calls]. rewrite C. lia.
    + intros i Hi. apply Hq. cbn [snd advance lib_calls] in Hi. rewrite C in Hi. lia.
    + exists st'. intros [| fuel] Hf; [lia | ]. cbn [run_loop]. rewrite T.
      apply R. lia.
Qed.

End SignalStops.

Lemma AnalogWatch_setup_run (w : AnalogWatch) (y : Sys) :
  AnalogWatch_setup (w, y) =
    (Ok tt, (w, advance y 0 0
       [ClockFaceSetup (clock_face w); ClockFaceDraw (clock_face w)])).
Proof.
  destruct w, y. unfold AnalogWatch_setup, bind, zoom, ClockFace_setup,
    ClockFace_draw, get_self, call, add_log, advance.
  simpl. rewrite <- app_assoc. reflexivity.
Qed.

Lemma AnalogWatchWithAlarm_setup_run (w : AnalogWatchWithAlarm) (y : Sys) :
  AnalogWatchWithAlarm_setup (w, y) =
    (Ok tt, (w, advance y 0 0
       [ClockFaceSetup (clock_face (analog w)); ClockFaceDraw (clock_face (analog w))])).
Proof.
  unfold AnalogWatchWithAlarm_setup, zoom. cbn [fst snd].
  rewrite AnalogWatch_setup_run. destruct w. reflexivity.
Qed.

(** X14. [AnalogWatch.setup] and [AnalogWatch.update] call no library
    function, so the first library call that raises while an analog watch
    runs, with or without alarm, is a [screen.update] or a [time.sleep] of
    the loop, inside the [try]: if that call, number [k], raises
    [KeyboardInterrupt] or [turtle.Terminator], and the interval is an
    ordinary one, then [run] returns normally, during tick number
    [(k - calls so far) / 2], whatever the state and the clock.
    (Exceptions that do not come from a library call are outside this
    statement.) *)
Theorem analog_watches_stop_on_signal (env : Env) (dt : number) (k : nat) (e : exn)
    (y : Sys) :
  ordinary_interval dt = true ->
  (lib_calls y <= k)%nat ->
  (forall i, (lib_calls y <= i < k)%nat -> signal env i = None) ->
  signal env k = Some e ->
  e = KeyboardInterrupt \/ e = Terminator ->
  (forall w, exists st',
      forall fuel, ((k - lib_calls y) / 2 < fuel)%nat ->
        run env AnalogWatch AnalogWatch_setup (AnalogWatch_update env)
          fuel dt (w, y) = Some (Ok tt, st'))
  /\ (forall w, exists st',
        forall fuel, ((k - lib_calls y) / 2 < fuel)%nat ->
          run env AnalogWatchWithAlarm AnalogWatchWithAlarm_setup
            (AnalogWatchWithAlarm_update env) fuel dt (w, y) = Some (Ok tt, st')).
Proof.
  intros O Hk Hq G Q. pose proof (ordinary_interval_check dt O) as B.
  assert (P : (k = lib_calls y + 2 * ((k - lib_calls y) / 2)
               \/ k = lib_calls y + 2 * ((k - lib_calls y) / 2) + 1)%nat).
  { pose proof (Nat.div_mod_eq (k - lib_calls y) 2) as D.
    pose proof (Nat.mod_upper_bound (k - lib_calls y) 2 ltac:(lia)) as U.
    lia. }
  split; intros w.
  - unfold run. rewrite AnalogWatch_setup_run.
    apply (run_loop_stops env AnalogWatch (AnalogWatch_update env) dt k e).
    + intros [a z]. eexists. split; [apply AnalogWatch_update_run | reflexivity].
    + exact B.
    + exact G.
    + exact Q.
    + exact P.
    + exact Hq.
  - unfold run. rewrite AnalogWatchWithAlarm_setup_run.
    apply (run_loop_stops env AnalogWatchWithAlarm (AnalogWatchWithAlarm_update env) dt k e).
    + intros [a z]. eexists.
      split; [apply AnalogWatchWithAlarm_update_run | reflexivity].
    + exact B.
    + exact G.
    + exact Q.
    + exact P.
    + exact Hq.
Qed.

(** X14 with the window closed before the third [screen.update] of the
    default analog watch. *)
Lemma analog_watches_stop_on_signal_witness :
  let env := closed_at 4 seconds_from_7 in
  exists st',
    run env AnalogWatch AnalogWatch_setup (AnalogWatch_update env) 3
      default_update_interval (default_analog_watch, sys0) = Some (Ok tt, st').
Proof.
  intros env.
  destruct (analog_watches_stop_on_signal env default_update_interval 4
              Terminator sys0) as [A _].
  - reflexivity.
  - cbn. lia.
  - intros i Hi. cbn in Hi. unfold env, closed_at. cbn [signal].
    destruct (Nat.eqb_spec i 4); [lia | reflexivity].
  - reflexivity.
  - right. reflexivity.
  - destruct (A default_analog_watch) as [st' R].
    exists st'. apply R. cbn. lia.
Defined.
